(** * Code-Elo-Backend: the résumé analysis engine of [scrapers/resume_parser.py]

    A shallow embedding of the section locator ([find_section]), the five
    multi-signal counters, the metrics assembler ([parse_resume]) and the score
    normaliser ([calculate_resume_score]), with the properties of the
    specification settled against it.

    Python values are modelled as follows.
    - [str] is a sequence of Unicode code points: [str := list N].
    - [int] is [Z]; lengths and match counts are computed in [nat] and injected.
    - [float] is the kernel's binary64 ([PrimFloat]), so [/], [*] and [+] round
      exactly as CPython's do.
    - [re] patterns are kept as the source writes them (raw strings) and
      compiled by [re_compile]; matching is a backtracking matcher that
      enumerates the matches at a position in the priority order of [re]
      (first alternative first, greedy repetition longest first). *)

From Stdlib Require Import ZArith NArith String Ascii List Bool Lia.
From Stdlib Require Import Sorting.Permutation Sorting.Sorted.
From Stdlib Require Import PrimFloat Uint63 SpecFloat FloatOps FloatAxioms.
Import ListNotations.

Set Implicit Arguments.

(* ------------------------------------------------------------------ *)
(** ** Strings: sequences of code points *)

Definition char := N.
Definition str := list char.

Definition str_eq_dec : forall a b : str, {a = b} + {a <> b} :=
  list_eq_dec N.eq_dec.

(** Bytes of a string literal of this file. *)
Fixpoint bytes_of (s : string) : list N :=
  match s with
  | EmptyString => []
  | String a s' => N_of_ascii a :: bytes_of s'
  end.

(** UTF-8 decoding: the literals below are written as the source writes them,
    and some patterns hold characters outside ASCII (bullets, dashes). *)
Fixpoint utf8_decode (bs : list N) {struct bs} : str :=
  match bs with
  | [] => []
  | b0 :: r0 =>
    if (b0 <? 128)%N then b0 :: utf8_decode r0
    else if (b0 <? 224)%N then
      match r0 with
      | b1 :: r1 => ((b0 - 192) * 64 + (b1 - 128))%N :: utf8_decode r1
      | [] => []
      end
    else if (b0 <? 240)%N then
      match r0 with
      | b1 :: b2 :: r2 =>
        ((b0 - 224) * 4096 + (b1 - 128) * 64 + (b2 - 128))%N :: utf8_decode r2
      | _ => []
      end
    else
      match r0 with
      | b1 :: b2 :: b3 :: r3 =>
        ((b0 - 240) * 262144 + (b1 - 128) * 4096 + (b2 - 128) * 64 + (b3 - 128))%N
          :: utf8_decode r3
      | _ => []
      end
  end.

(** [u "..."] is the Python string literal ["..."] (no escapes: a raw string). *)
Definition u (s : string) : str := utf8_decode (bytes_of s).

Definition NL : char := 10%N.

(** ["\n".join(lines)] *)
Fixpoint join (sep : str) (parts : list str) : str :=
  match parts with
  | [] => []
  | [p] => p
  | p :: ps => p ++ sep ++ join sep ps
  end.

Definition unlines (ls : list string) : str := join [NL] (map u ls).

(** [s.replace(c, by)] for a one-character [c]. *)
Definition replace_char (c : char) (by_ : str) (s : str) : str :=
  flat_map (fun x => if (x =? c)%N then by_ else [x]) s.

(** [s[a:b]] for [0 <= a]; an end before the start gives the empty string. *)
Definition slice (s : str) (a b : Z) : str :=
  firstn (Z.to_nat (b - a)) (skipn (Z.to_nat a) s).

(** [len(s)] *)
Definition len {A} (l : list A) : Z := Z.of_nat (length l).

(* ------------------------------------------------------------------ *)
(** ** Character classes of [re] on [str] patterns

    [\s] is [str.isspace] (the table is small and written out).  [\w] and
    [\d] are written out on ASCII; beyond ASCII they follow the Unicode
    database, and so does [str.lower]: these tables are taken as given (a
    [Unicode] instance), and the general properties below hold for any such
    tables. *)

Class Unicode := {
  str_lower : str -> str;      (* str.lower() *)
  uni_alnum : char -> bool;      (* str.isalnum() of a code point >= 128 *)
  uni_decimal : char -> bool     (* str.isdecimal() of a code point >= 128 *)
}.

Definition in_range (lo hi c : N) : bool := ((lo <=? c) && (c <=? hi))%N.

Definition is_space (c : char) : bool :=
  in_range 9 13 c || in_range 28 32 c || (c =? 133)%N || (c =? 160)%N
  || (c =? 5760)%N || in_range 8192 8202 c || in_range 8232 8233 c
  || (c =? 8239)%N || (c =? 8287)%N || (c =? 12288)%N.

Definition ascii_digit (c : char) : bool := in_range 48 57 c.
Definition ascii_upper (c : char) : bool := in_range 65 90 c.
Definition ascii_lower (c : char) : bool := in_range 97 122 c.

Section Classes.
Context {U : Unicode}.

Definition is_digit (c : char) : bool :=
  if (c <? 128)%N then ascii_digit c else uni_decimal c.

Definition is_word (c : char) : bool :=
  if (c <? 128)%N
  then ascii_digit c || ascii_upper c || ascii_lower c || (c =? 95)%N
  else uni_alnum c.
End Classes.

(** The tables of a text in ASCII: lower-casing maps A-Z to a-z and nothing
    beyond ASCII is alphanumeric. *)
Definition lower_ascii_char (c : char) : char :=
  if ascii_upper c then (c + 32)%N else c.

Definition ascii_tables : Unicode := {|
  str_lower := map lower_ascii_char;
  uni_alnum := fun _ => false;
  uni_decimal := fun _ => false
|}.

(* ------------------------------------------------------------------ *)
(** ** Regular expressions: the fragment the source's patterns use *)

Inductive citem : Type :=
| CLit (c : char)
| CRange (lo hi : char)
| CSpace
| CDigit
| CWord.

Definition charset := list citem.

Inductive regex : Type :=
| Eps                          (* empty pattern *)
| Never                        (* matches nothing *)
| OneOf (cs : charset)         (* a literal, an escape or [...] *)
| WordB                        (* \b *)
| Seq (a b : regex)
| Alt (a b : regex)            (* a|b, a tried first *)
| Star (cs : charset).         (* x*, greedy, x one character *)

(** x+, x?, x{n} and x{m,n}, all greedy. *)
Definition Plus (cs : charset) : regex := Seq (OneOf cs) (Star cs).
Definition Opt (r : regex) : regex := Alt r Eps.

Fixpoint Times (n : nat) (r : regex) : regex :=
  match n with
  | O => Eps
  | S n' => Seq r (Times n' r)
  end.

Fixpoint UpTo (n : nat) (r : regex) : regex :=
  match n with
  | O => Eps
  | S n' => Opt (Seq r (UpTo n' r))
  end.

(** Whether a pattern may match without passing a character. *)
Fixpoint nullable (r : regex) : bool :=
  match r with
  | Eps | WordB | Star _ => true
  | Never | OneOf _ => false
  | Seq a b => nullable a && nullable b
  | Alt a b => nullable a || nullable b
  end.

(** A string matched literally: what [re.escape] builds a pattern for. *)
Fixpoint Lit (s : str) : regex :=
  match s with
  | [] => Eps
  | c :: s' => Seq (OneOf [CLit c]) (Lit s')
  end.

Section Matcher.
Context {U : Unicode}.

Definition in_item (i : citem) (c : char) : bool :=
  match i with
  | CLit x => (c =? x)%N
  | CRange lo hi => in_range lo hi c
  | CSpace => is_space c
  | CDigit => is_digit c
  | CWord => is_word c
  end.

Definition in_set (cs : charset) (c : char) : bool :=
  existsb (fun i => in_item i c) cs.

(** A matching position: the character before it (if any) and what is left
    of the subject string. *)
Definition mstate : Type := option char * str.

Definition word_before (st : mstate) : bool :=
  match fst st with Some c => is_word c | None => false end.

Definition word_after (st : mstate) : bool :=
  match snd st with c :: _ => is_word c | [] => false end.

(** Greedy repetition of one character: the longest run first, then each
    shorter one as backtracking gives characters back. *)
Fixpoint star_run (cs : charset) (prev : option char) (s : str) : list mstate :=
  match s with
  | c :: s' =>
    if in_set cs c then star_run cs (Some c) s' ++ [(prev, s)]
    else [(prev, s)]
  | [] => [(prev, s)]
  end.

(** All the ways [r] matches at [st], in the order the backtracking engine
    tries them: the head is the match [re] reports. *)
Fixpoint run (r : regex) (st : mstate) : list mstate :=
  match r with
  | Eps => [st]
  | Never => []
  | OneOf cs =>
    match snd st with
    | c :: s' => if in_set cs c then [(Some c, s')] else []
    | [] => []
    end
  | WordB => if xorb (word_before st) (word_after st) then [st] else []
  | Seq a b => flat_map (run b) (run a st)
  | Alt a b => run a st ++ run b st
  | Star cs => star_run cs (fst st) (snd st)
  end.

(** The match at one position: its length, if there is one. *)
Definition match_here (r : regex) (prev : option char) (s : str) : option nat :=
  match run r (prev, s) with
  | (_, rest) :: _ => Some (length s - length rest)
  | [] => None
  end.

(** [re.search]: the span of the leftmost match. *)
Fixpoint search_from (r : regex) (prev : option char) (pos : nat) (s : str)
  : option (nat * nat) :=
  match match_here r prev s with
  | Some n => Some (pos, pos + n)
  | None =>
    match s with
    | [] => None
    | c :: s' => search_from r (Some c) (S pos) s'
    end
  end.

Definition re_search (r : regex) (s : str) : option (nat * nat) :=
  search_from r None 0 s.

(** [len(re.findall(...))]: matches are taken left to right and do not
    overlap; [skip] characters of the last match are still to be passed.
    No pattern of the source matches the empty string ([patterns_consume]),
    so the rule of [re] for empty matches is never needed: after one the scan
    here just moves one character on. *)
Fixpoint count_from (r : regex) (prev : option char) (skip : nat) (s : str)
  : nat :=
  match skip with
  | S k =>
    match s with
    | [] => 0
    | c :: s' => count_from r (Some c) k s'
    end
  | O =>
    match match_here r prev s with
    | Some n =>
      S (match s with
         | [] => 0
         | c :: s' => count_from r (Some c) (n - 1) s'
         end)
    | None =>
      match s with
      | [] => 0
      | c :: s' => count_from r (Some c) 0 s'
      end
    end
  end.

Definition re_count (r : regex) (s : str) : Z :=
  Z.of_nat (count_from r None 0 s).
End Matcher.

(** The matcher read as a relation: [matches r st st'] when [r] matches from
    the position [st] up to the position [st']. *)
Section Matching.
Context {U : Unicode}.

Inductive matches : regex -> mstate -> mstate -> Prop :=
| M_Eps st : matches Eps st st
| M_OneOf cs p c s :
    in_set cs c = true -> matches (OneOf cs) (p, c :: s) (Some c, s)
| M_WordB st :
    xorb (word_before st) (word_after st) = true -> matches WordB st st
| M_Seq a b st mid st' :
    matches a st mid -> matches b mid st' -> matches (Seq a b) st st'
| M_AltL a b st st' : matches a st st' -> matches (Alt a b) st st'
| M_AltR a b st st' : matches b st st' -> matches (Alt a b) st st'
| M_Star_stop cs st : matches (Star cs) st st
| M_Star_step cs p c s st' :
    in_set cs c = true -> matches (Star cs) (Some c, s) st' ->
    matches (Star cs) (p, c :: s) st'.
End Matching.

(* ------------------------------------------------------------------ *)
(** ** [re.compile]: the pattern syntax the source uses

    Literals, escapes ([\n \t \r \s \d \w \b] and escaped punctuation), classes
    [[...]] with ranges, groups [(...)] and [(?:...)], alternation, and the
    greedy quantifiers [* + ? {n} {m,n}] ([*] and [+] on one character).
    Groups only group: [len(re.findall(...))] counts matches whatever they
    capture.  Anything else does not compile. *)

Definition chr (s : string) : char :=
  match s with
  | String a _ => N_of_ascii a
  | EmptyString => 0%N
  end.

Definition is_alnum_ascii (c : char) : bool :=
  ascii_digit c || ascii_upper c || ascii_lower c.

(** The escape [\c] outside and inside a class. *)
Definition escape_item (c : char) : option citem :=
  if (c =? chr "n")%N then Some (CLit 10%N)
  else if (c =? chr "t")%N then Some (CLit 9%N)
  else if (c =? chr "r")%N then Some (CLit 13%N)
  else if (c =? chr "s")%N then Some CSpace
  else if (c =? chr "d")%N then Some CDigit
  else if (c =? chr "w")%N then Some CWord
  else if is_alnum_ascii c then None
  else Some (CLit c).

(** The items of a class, up to its closing bracket. *)
Fixpoint parse_class (fuel : nat) (s : str) : option (charset * str) :=
  match fuel with
  | O => None
  | S f =>
    match s with
    | [] => None
    | c :: s1 =>
      if (c =? chr "]")%N then Some ([], s1)
      else
        let item :=
          if (c =? chr "\")%N then
            match s1 with
            | e :: s2 =>
              match escape_item e with
              | Some i => Some (i, s2)
              | None => None
              end
            | [] => None
            end
          else Some (CLit c, s1) in
        match item with
        | None => None
        | Some (i, d :: hi :: s3) =>
          if ((d =? chr "-") && negb (hi =? chr "]"))%N
          then
            match i with
            | CLit lo =>
              if ((lo <=? hi) && negb (hi =? chr "\"))%N then
                match parse_class f s3 with
                | Some (cs, r) => Some (CRange lo hi :: cs, r)
                | None => None
                end
              else None
            | _ => None
            end
          else
            match parse_class f (d :: hi :: s3) with
            | Some (cs, r) => Some (i :: cs, r)
            | None => None
            end
        | Some (i, s2) =>
          match parse_class f s2 with
          | Some (cs, r) => Some (i :: cs, r)
          | None => None
          end
        end
    end
  end.

(** A decimal number, as in [{m,n}]. *)
Fixpoint parse_nat (acc : nat) (seen : bool) (s : str) : option (nat * str) :=
  match s with
  | c :: s' =>
    if ascii_digit c then parse_nat (10 * acc + N.to_nat (c - 48)) true s'
    else if seen then Some (acc, s) else None
  | [] => if seen then Some (acc, s) else None
  end.

Definition is_quantifier (c : char) : bool :=
  ((c =? chr "*") || (c =? chr "+") || (c =? chr "?") || (c =? chr "{"))%N.

(** No lazy or possessive quantifier, and no quantifier twice. *)
Definition no_second_quantifier (res : option (regex * str))
  : option (regex * str) :=
  match res with
  | Some (_, c :: _) => if is_quantifier c then None else res
  | _ => res
  end.

(** The quantifier after an atom, if there is one. *)
Definition parse_quant (a : regex) (s : str) : option (regex * str) :=
  match s with
  | c :: s1 =>
    if (c =? chr "*")%N then
      no_second_quantifier
        match a with OneOf cs => Some (Star cs, s1) | _ => None end
    else if (c =? chr "+")%N then
      no_second_quantifier
        match a with OneOf cs => Some (Plus cs, s1) | _ => None end
    else if (c =? chr "?")%N then no_second_quantifier (Some (Opt a, s1))
    else if (c =? chr "{")%N then
      match parse_nat 0 false s1 with
      | Some (m, d :: s2) =>
        if (d =? chr "}")%N then no_second_quantifier (Some (Times m a, s2))
        else if (d =? chr ",")%N then
          match parse_nat 0 false s2 with
          | Some (n, e :: s3) =>
            if ((e =? chr "}")%N && (m <=? n)%nat)%bool
            then no_second_quantifier
                   (Some (Seq (Times m a) (UpTo (n - m) a), s3))
            else None
          | _ => None
          end
        else None
      | _ => None
      end
    else Some (a, s)
  | [] => Some (a, s)
  end.

Definition is_unsupported_meta (c : char) : bool :=
  ((c =? chr ".") || (c =? chr "^") || (c =? chr "$") || is_quantifier c)%N.

Fixpoint parse_alt (fuel : nat) (s : str) {struct fuel} : option (regex * str) :=
  match fuel with
  | O => None
  | S f =>
    match parse_seq f s with
    | Some (r, c :: s') =>
      if (c =? chr "|")%N then
        match parse_alt f s' with
        | Some (r2, s'') => Some (Alt r r2, s'')
        | None => None
        end
      else Some (r, c :: s')
    | other => other
    end
  end
with parse_seq (fuel : nat) (s : str) {struct fuel} : option (regex * str) :=
  match fuel with
  | O => None
  | S f =>
    match s with
    | [] => Some (Eps, [])
    | c :: _ =>
      if ((c =? chr "|") || (c =? chr ")"))%N then Some (Eps, s)
      else
        match parse_atom f s with
        | Some (a, s1) =>
          match parse_quant a s1 with
          | Some (q, s2) =>
            match parse_seq f s2 with
            | Some (Eps, s3) => Some (q, s3)
            | Some (r, s3) => Some (Seq q r, s3)
            | None => None
            end
          | None => None
          end
        | None => None
        end
    end
  end
with parse_atom (fuel : nat) (s : str) {struct fuel} : option (regex * str) :=
  match fuel with
  | O => None
  | S f =>
    match s with
    | [] => None
    | c :: s1 =>
      if (c =? chr "(")%N then
        let body :=
          match s1 with
          | q :: k :: s2 =>
            if (q =? chr "?")%N
            then if (k =? chr ":")%N then Some s2 else None
            else Some s1
          | _ => Some s1
          end in
        match body with
        | Some b =>
          match parse_alt f b with
          | Some (r, d :: s3) => if (d =? chr ")")%N then Some (r, s3) else None
          | _ => None
          end
        | None => None
        end
      else if (c =? chr "[")%N then
        match s1 with
        | d :: _ =>
          if ((d =? chr "^") || (d =? chr "]"))%N then None
          else
            match parse_class (S (length s1)) s1 with
            | Some (cs, r) => Some (OneOf cs, r)
            | None => None
            end
        | [] => None
        end
      else if (c =? chr "\")%N then
        match s1 with
        | e :: s2 =>
          if (e =? chr "b")%N then Some (WordB, s2)
          else
            match escape_item e with
            | Some i => Some (OneOf [i], s2)
            | None => None
            end
        | [] => None
        end
      else if is_unsupported_meta c then None
      else Some (OneOf [CLit c], s1)
    end
  end.

Definition re_compile (p : str) : option regex :=
  match parse_alt (3 * length p + 3) p with
  | Some (r, []) => Some r
  | _ => None
  end.

(** A pattern of the source, compiled.  Every pattern below compiles
    ([patterns_compile]); a pattern that did not would match nothing. *)
Definition re_of (p : str) : regex :=
  match re_compile p with
  | Some r => r
  | None => Never
  end.

Definition re (p : string) : regex := re_of (u p).

(** [r'\b(' + '|'.join(words) + r')\b'] *)
Definition word_alternation (words : list string) : regex :=
  re_of (u "\b(" ++ join (u "|") (map u words) ++ u ")\b").

(* ------------------------------------------------------------------ *)
(** ** The signal aggregation written inline in the counters *)

(** [list.sort()] on integers. *)
Fixpoint insert_sorted (x : Z) (l : list Z) : list Z :=
  match l with
  | [] => [x]
  | y :: l' => if (x <=? y)%Z then x :: l else y :: insert_sorted x l'
  end.

Fixpoint sort_ints (l : list Z) : list Z :=
  match l with
  | [] => []
  | x :: l' => insert_sorted x (sort_ints l')
  end.

(** [valid_indicators = [i for i in indicators if i > 0]] and, when the list
    is not empty, [valid_indicators.sort();
    valid_indicators[len(valid_indicators) // 2]].  [None]: the list is empty
    and the [if valid_indicators:] block is skipped. *)
Definition valid_indicators (indicators : list Z) : list Z :=
  filter (fun i => (0 <? i)%Z) indicators.

Definition median_of_valid (indicators : list Z) : option Z :=
  let valid := valid_indicators indicators in
  match valid with
  | [] => None
  | _ :: _ => Some (nth (length valid / 2) (sort_ints valid) 0%Z)
  end.

(** [max(indicators)] under [if indicators:]; [None]: the list is empty. *)
Definition max_of (indicators : list Z) : option Z :=
  match indicators with
  | [] => None
  | x :: l => Some (fold_left Z.max l x)
  end.

(* ------------------------------------------------------------------ *)
(** ** [find_section] and the five counters *)

Open Scope Z_scope.

Definition next_section_pattern : regex :=
  re "\n\s*(experience|work\s+experience|internships?|professional\s+experience|projects?|education|academic\s+background|certifications?|certificates?|achievements?|awards?|honors?|technical\s+skills?|skills?|extracurricular|activities|leadership|positions?\s+of\s+responsibility|training|courses?|publications?|references?)\s*[:\n]".

(** [r'\n\s*' + re.escape(header) + r'\s*[:\n]']: the escaped header is the
    header matched literally. *)
Definition header_pattern (header : str) : regex :=
  Seq (re "\n\s*") (Seq (Lit header) (re "\s*[:\n]")).

Definition bullet_pattern : regex := re "\n\s*[•●▪▸►→⦿◆■-]\s+".

Definition exp_headers : list string :=
  ["experience"; "work experience"; "professional experience";
   "internships"; "internship"; "work history"; "employment"]%string.

Definition role_keywords : list string :=
  ["intern"; "developer"; "engineer"; "analyst"; "designer";
   "consultant"; "associate"; "trainee"; "assistant"; "specialist";
   "coordinator"; "lead"; "manager"; "researcher"; "programmer";
   "scientist"; "architect"; "administrator"; "technician"]%string.

Definition project_headers : list string :=
  ["projects"; "personal projects"; "academic projects";
   "key projects"; "technical projects"; "major projects";
   "project work"; "project experience"]%string.

Definition action_verbs : list string :=
  ["developed"; "built"; "created"; "designed"; "implemented";
   "engineered"; "constructed"; "programmed"; "coded"; "architected";
   "deployed"; "launched"; "established"; "integrated"; "devised"]%string.

Definition cert_headers : list string :=
  ["certifications"; "certification"; "certificates";
   "licenses and certifications"; "professional certifications";
   "courses"; "online courses"; "training"; "courses and certifications"]%string.

Definition platforms : list string :=
  ["coursera"; "udemy"; "edx"; "linkedin learning"; "pluralsight";
   "udacity"; "codecademy"; "freecodecamp"; "khan academy";
   "microsoft"; "google"; "amazon"; "ibm"; "oracle"; "cisco";
   "aws"; "azure"; "comptia"; "nptel"; "swayam"]%string.

Definition skill_categories : list (string * list string) :=
  [("programming_languages",
    ["python"; "java"; "javascript"; "typescript"; "c++"; "cpp"; "c#";
     "c"; "go"; "golang"; "rust"; "kotlin"; "swift"; "ruby"; "php";
     "scala"; "r"; "matlab"; "perl"; "haskell"; "dart"; "shell";
     "bash"; "powershell"; "objective-c"; "assembly"; "sql"; "pl/sql"]);
   ("web_frontend",
    ["html"; "css"; "html5"; "css3"; "react"; "reactjs"; "angular";
     "angularjs"; "vue"; "vuejs"; "svelte"; "next.js"; "nextjs";
     "nuxt"; "gatsby"; "redux"; "jquery"; "bootstrap"; "tailwind";
     "material-ui"; "mui"; "sass"; "scss"; "less"; "webpack"; "vite"]);
   ("web_backend",
    ["node.js"; "nodejs"; "node"; "express"; "expressjs"; "django";
     "flask"; "fastapi"; "spring boot"; "spring"; "asp.net"; "dotnet";
     ".net"; "laravel"; "rails"; "ruby on rails"; "graphql"; "rest api";
     "restful"; "microservices"; "serverless"; "websocket"]);
   ("mobile",
    ["android"; "ios"; "react native"; "flutter"; "kotlin";
     "swift"; "swiftui"; "xamarin"; "ionic"; "cordova"]);
   ("databases",
    ["mysql"; "postgresql"; "mongodb"; "redis"; "sqlite"; "oracle";
     "sql server"; "mssql"; "cassandra"; "dynamodb"; "firebase";
     "firestore"; "elasticsearch"; "neo4j"; "couchdb"; "mariadb"]);
   ("cloud_devops",
    ["aws"; "azure"; "gcp"; "google cloud"; "docker"; "kubernetes";
     "k8s"; "jenkins"; "terraform"; "ansible"; "ci/cd"; "github actions";
     "gitlab ci"; "circleci"; "travis ci"; "heroku"; "netlify"; "vercel"]);
   ("ml_ai",
    ["machine learning"; "deep learning"; "tensorflow"; "pytorch";
     "keras"; "scikit-learn"; "sklearn"; "pandas"; "numpy"; "opencv";
     "nlp"; "computer vision"; "neural networks"; "transformers";
     "bert"; "gpt"; "cnn"; "rnn"; "lstm"; "gan"; "xgboost"]);
   ("data_science",
    ["data analysis"; "data science"; "data visualization"; "tableau";
     "power bi"; "matplotlib"; "seaborn"; "plotly"; "jupyter";
     "apache spark"; "hadoop"; "kafka"; "airflow"; "etl"]);
   ("tools_ides",
    ["git"; "github"; "gitlab"; "bitbucket"; "svn"; "vs code";
     "visual studio"; "intellij"; "pycharm"; "eclipse"; "android studio";
     "xcode"; "postman"; "insomnia"; "jira"; "confluence"; "trello";
     "slack"; "figma"; "adobe xd"]);
   ("concepts",
    ["data structures"; "algorithms"; "oop"; "oops"; "design patterns";
     "system design"; "distributed systems"; "multithreading";
     "networking"; "operating systems"; "dbms"; "agile"; "scrum";
     "tdd"; "testing"; "unit testing"; "api development"])]%string.

(** [all_skills]: the categories' values, flattened in order. *)
Definition all_skills : list string := flat_map snd skill_categories.

(** The pattern of one skill: the four escaping [replace]s, blanks turned
    into [\s+], word boundaries around. *)
Definition skill_regex (skill : str) : regex :=
  let p1 := replace_char (chr ".") (u "\.") (replace_char (chr "+") (u "\+") skill) in
  let p2 := replace_char (chr "/") (u "\/") (replace_char (chr "#") (u "\#") p1) in
  re_of (u "\b" ++ replace_char (chr " ") (u "\s+") p2 ++ u "\b").

Definition skill_headers : list string :=
  ["skills"; "technical skills"; "core competencies"; "technologies"]%string.

Definition achievement_headers : list string :=
  ["achievements"; "achievement"; "awards"; "honors"; "accomplishments";
   "awards and honors"; "recognitions"; "scholarships"]%string.

Definition extra_headers : list string :=
  ["extracurricular"; "activities"; "leadership";
   "positions of responsibility"]%string.

Definition cp_patterns : list string :=
  ["\bgate\b"; "\bleetcode\b"; "\bcodeforces\b"; "\bcodechef\b";
   "\bhackerrank\b"; "\bhackerearth\b"; "\btopcoder\b";
   "\batcoder\b"; "\bgfg\b"; "\bgeeksforgeeks\b";
   "\bsolved\s+\d+\+?\s+(problems?|questions?)";
   "\d+\s*-?\s*star\b"; "\brating\s*:?\s*\d{3,4}\b";
   "\brank\s*:?\s*\d+"; "\bair\s+\d+"; "\btop\s+\d+%?"]%string.

Definition award_patterns : list string :=
  ["\bscholarship\b"; "\bfellowship\b"; "\baward\b";
   "\bwinner\b"; "\bfinalist\b"; "\bchampion\b";
   "\bmerit\b"; "\bdean\'?s\s+list\b"; "\bhonor\s+roll\b";
   "\b(first|1st|second|2nd|third|3rd)\s+(place|position|prize|rank)\b";
   "\bgold\s+medal\b"; "\bsilver\s+medal\b"; "\bbronze\s+medal\b"]%string.

Definition competition_patterns : list string :=
  ["\bhackathon\b"; "\bcompetition\b"; "\bcontest\b";
   "\bcode\s*jam\b"; "\bhash\s*code\b"; "\bkick\s*start\b"]%string.

Definition leadership_patterns : list string :=
  ["\b(president|vice president|vp|secretary|treasurer)\b";
   "\b(head|lead|captain|coordinator|director|chair)\b";
   "\b(founder|co-founder|organizer|mentor)\b";
   "\bcore\s+(team\s+)?member\b"; "\bproject\s+lead\b";
   "\b(organized|conducted|led|managed|spearheaded)\b"]%string.

(** [sum(...)] over a list of integers. *)
Definition sum_ints (l : list Z) : Z := fold_left Z.add l 0.

(** A [set] of strings as the list of its distinct members; [len] counts
    them. *)
Definition set_add (x : str) (s : list str) : list str :=
  if in_dec str_eq_dec x s then s else x :: s.

Section ResumeParser.
Context {U : Unicode}.

(** The loop of [find_section] over the candidate headers, on the
    lower-cased text: the first header of the list that matches anywhere
    decides. *)
Fixpoint find_section_lower (text_lower : str) (section_headers : list str)
  : Z * Z :=
  match section_headers with
  | [] => (-1, -1)
  | header :: others =>
    match re_search (header_pattern header) text_lower with
    | Some (_, match_end) =>
      let start := Z.of_nat match_end in
      match re_search next_section_pattern (skipn match_end text_lower) with
      | Some (next_start, _) => (start, start + Z.of_nat next_start)
      | None => (start, start + 3000)
      end
    | None => find_section_lower text_lower others
    end
  end.

Definition find_section (text : str) (section_headers : list string) : Z * Z :=
  find_section_lower (str_lower text) (map u section_headers).

(** The four signals of [count_internships] on a located section. *)
Definition internship_indicators (text text_lower : str) (start end_ : Z)
  : list Z :=
  let section_text := slice text_lower start end_ in
  let date_patterns :=
    re_count (re "(jan|feb|mar|apr|may|jun|jul|aug|sep|oct|nov|dec)[a-z]*[\s,.-]*\d{4}\s*[-–—to]\s*(jan|feb|mar|apr|may|jun|jul|aug|sep|oct|nov|dec|present|current|ongoing)")
             section_text in
  let company_patterns :=
    re_count (re "\n\s*[A-Z][a-zA-Z\s&,.-]+(?:\s+[-–|]\s+|\s*\n\s*)(?:[A-Z][a-z]+(?:,\s*[A-Z]{2})?|\d{4})")
             (slice text start end_) in
  let role_count := re_count (word_alternation role_keywords) section_text in
  let bullets := re_count bullet_pattern section_text in
  [date_patterns; company_patterns; role_count; bullets / 4].

Definition internship_fallback (text_lower : str) : Z :=
  re_count (re "\b(intern|internship|co-?op|trainee)\b") text_lower.

Definition count_internships (text : str) : Z :=
  let text_lower := str_lower text in
  let '(start, end_) := find_section text exp_headers in
  let from_section :=
    if start =? -1 then None
    else
      match median_of_valid (internship_indicators text text_lower start end_) with
      | Some count => Some (Z.min count 5)
      | None => None
      end in
  match from_section with
  | Some result => result
  | None => Z.min (Z.max (internship_fallback text_lower) 0) 5
  end.

(** The five signals of [count_projects] on a located section. *)
Definition project_indicators (text text_lower : str) (start end_ : Z)
  : list Z :=
  let section_text := slice text_lower start end_ in
  let original_section := slice text start end_ in
  let title_patterns :=
    re_count (re "\n\s*[A-Z][a-zA-Z0-9\s]+\s*[|–—-]\s*[A-Za-z,\s.+#]+")
             original_section in
  let action_count := re_count (word_alternation action_verbs) section_text in
  let tech_indicators :=
    re_count (re "(web\s+application|mobile\s+app|system|platform|api|website|software|tool|dashboard|interface|database|algorithm|model|framework)")
             section_text in
  let bullets := re_count bullet_pattern section_text in
  let github_links :=
    re_count (re "github\.com|gitlab\.com|bitbucket\.org") section_text in
  [title_patterns; action_count / 2; tech_indicators / 2; bullets / 3;
   github_links].

Definition project_fallback (text_lower : str) : Z :=
  re_count (re "(developed|built|created)\s+(?:a|an|the)?\s*(?:\w+\s+){0,3}(application|system|platform|website|tool)")
           text_lower.

Definition count_projects (text : str) : Z :=
  let text_lower := str_lower text in
  let '(start, end_) := find_section text project_headers in
  let from_section :=
    if start =? -1 then None
    else
      match median_of_valid (project_indicators text text_lower start end_) with
      | Some count => Some (Z.min (Z.max count 1) 8)
      | None => None
      end in
  match from_section with
  | Some result => result
  | None => Z.min (Z.max (project_fallback text_lower) 0) 8
  end.

(** The five signals of [count_certifications] on a located section. *)
Definition certification_indicators (text_lower : str) (start end_ : Z)
  : list Z :=
  let section_text := slice text_lower start end_ in
  let bullets := re_count bullet_pattern section_text in
  let platform_count := re_count (word_alternation platforms) section_text in
  let cert_keywords :=
    re_count (re "\b(certified|certification|certificate|credential|diploma|course|training|completion)\b")
             section_text in
  let dates := re_count (re "\b(20\d{2}|19\d{2})\b") section_text in
  let common_certs :=
    re_count (re "(aws\s+certified|google\s+certified|microsoft\s+certified|cisco\s+certified|python|java|machine\s+learning|data\s+science|web\s+development|full\s+stack)")
             section_text in
  [bullets; platform_count; cert_keywords / 2; dates; common_certs].

Definition certification_fallback (text_lower : str) : Z :=
  re_count (re "\b(coursera|udemy|nptel|aws\s+certified|google\s+certified)\b")
           text_lower.

Definition count_certifications (text : str) : Z :=
  let text_lower := str_lower text in
  let '(start, end_) := find_section text cert_headers in
  let from_section :=
    if start =? -1 then None
    else
      match max_of (certification_indicators text_lower start end_) with
      | Some count => Some (Z.min count 10)
      | None => None
      end in
  match from_section with
  | Some result => result
  | None => Z.min (Z.max (certification_fallback text_lower) 0) 10
  end.

(** [found_skills]: the skills whose pattern is found in the whole text. *)
Fixpoint find_skills (text_lower : str) (skills : list string)
         (found_skills : list str) : list str :=
  match skills with
  | [] => found_skills
  | skill :: others =>
    find_skills text_lower others
      (match re_search (skill_regex (u skill)) text_lower with
       | Some _ => set_add (u skill) found_skills
       | None => found_skills
       end)
  end.

Definition count_skills (text : str) : Z :=
  let text_lower := str_lower text in
  let found_skills := find_skills text_lower all_skills [] in
  let '(start, end_) := find_section text skill_headers in
  let bonus_skills :=
    if start =? -1 then 0
    else
      let skills_text := slice text_lower start end_ in
      let separators := re_count (re "[,;]") skills_text in
      if len found_skills <? separators
      then separators - len found_skills
      else 0 in
  let total_skills := len found_skills + bonus_skills / 2 in
  Z.min total_skills 30.

Definition count_all (patterns : list string) (section_text : str) : Z :=
  sum_ints (map (fun p => re_count (re p) section_text) patterns).

Definition achievement_fallback (text_lower : str) : Z :=
  re_count (re "\b(nptel|coursera|udemy|aws\s+certified|google\s+certified)\b")
           text_lower.

(** The signal of the achievements section: bullets against pattern hits. *)
Definition achievement_section_signal (text_lower : str) (start end_ : Z) : Z :=
  let section_text := slice text_lower start end_ in
  let bullets := re_count bullet_pattern section_text in
  let all_patterns := cp_patterns ++ award_patterns ++ competition_patterns in
  let pattern_matches := count_all all_patterns section_text in
  Z.max bullets pattern_matches.

(** The signal of the extracurricular section: leadership hits, halved. *)
Definition leadership_signal (text_lower : str) (start end_ : Z) : Z :=
  let section_text := slice text_lower start end_ in
  let leadership_count := count_all leadership_patterns section_text in
  leadership_count / 2.

Definition count_achievements (text : str) : Z :=
  let text_lower := str_lower text in
  let total_count := 0 in
  let total_count :=
    let '(start, end_) := find_section text achievement_headers in
    if start =? -1 then total_count
    else achievement_section_signal text_lower start end_ in
  let total_count :=
    let '(start, end_) := find_section text extra_headers in
    if start =? -1 then total_count
    else Z.max total_count (leadership_signal text_lower start end_) in
  let total_count :=
    if total_count =? 0
    then Z.max total_count (achievement_fallback text_lower)
    else total_count in
  Z.min total_count 8.
End ResumeParser.

(* ------------------------------------------------------------------ *)
(** ** [parse_resume]: the metrics record, all or nothing *)

Record Metrics : Type := {
  internships : Z;
  projects : Z;
  certifications : Z;
  skills : Z;
  achievements : Z
}.

(** A call either returns or raises an [Exception]. *)
Inductive outcome (E A : Type) : Type :=
| Returns (a : A)
| Raises (e : E).

Arguments Returns {E A} a.
Arguments Raises {E A} e.

Definition bind {E A B} (x : outcome E A) (k : A -> outcome E B) : outcome E B :=
  match x with
  | Returns a => k a
  | Raises e => Raises e
  end.

Notation "x <- c ;; k" := (bind c (fun x => k))
  (at level 61, c at next level, right associativity).

(** [not text.strip()] *)
Definition is_blank (text : str) : bool := forallb is_space text.

Section ParseResume.
Variable E : Type.
(** [ValueError("Could not extract text from resume")] *)
Variable value_error : E.
(** [extract_resume_text]: reading the file is outside the engine. *)
Variable extract_resume_text : string -> outcome E str.

(** The body of the [try] block, over counters that may raise. *)
Definition parse_body
           (c_internships c_projects c_certifications c_skills c_achievements
            : str -> outcome E Z)
           (file_path : string) : outcome E Metrics :=
  text <- extract_resume_text file_path ;;
  if is_blank text then Raises value_error
  else
    i <- c_internships text ;;
    p <- c_projects text ;;
    c <- c_certifications text ;;
    s <- c_skills text ;;
    a <- c_achievements text ;;
    Returns {| internships := i; projects := p; certifications := c;
               skills := s; achievements := a |}.

(** [try: ... return metrics / except Exception: ... return None] *)
Definition parse_resume_with
           (c_internships c_projects c_certifications c_skills c_achievements
            : str -> outcome E Z)
           (file_path : string) : option Metrics :=
  match parse_body c_internships c_projects c_certifications c_skills
                   c_achievements file_path with
  | Returns metrics => Some metrics
  | Raises _ => None
  end.

Context {U : Unicode}.

(** The metrics of a text: the dictionary [parse_resume] builds. *)
Definition resume_metrics (text : str) : Metrics :=
  {| internships := count_internships text;
     projects := count_projects text;
     certifications := count_certifications text;
     skills := count_skills text;
     achievements := count_achievements text |}.

Definition parse_resume (file_path : string) : option Metrics :=
  parse_resume_with
    (fun text => Returns (count_internships text))
    (fun text => Returns (count_projects text))
    (fun text => Returns (count_certifications text))
    (fun text => Returns (count_skills text))
    (fun text => Returns (count_achievements text))
    file_path.
End ParseResume.

(* ------------------------------------------------------------------ *)
(** ** [calculate_resume_score]

    Floats are binary64.  [float_of_int] is exact for integers below 2^53 in
    absolute value: those converted here are counts and small constants. *)

Definition float_of_int (z : Z) : float :=
  match z with
  | Z0 => PrimFloat.zero
  | Zpos _ => PrimFloat.of_uint63 (Uint63.of_Z z)
  | Zneg p => PrimFloat.opp (PrimFloat.of_uint63 (Uint63.of_Z (Zpos p)))
  end.

(** [p / q] rounded to the nearest integer, ties to the even one ([0 < q]). *)
Definition round_half_even (p q : Z) : Z :=
  let f := p / q in
  let r := p mod q in
  if 2 * r <? q then f
  else if q <? 2 * r then f + 1
  else if Z.even f then f else f + 1.

(** [p / 2^k] rounded to the nearest integer, ties to the even one
    ([0 <= p], [0 < k]), by shifts. *)
Definition round_half_even_shift (p k : Z) : Z :=
  let f := Z.shiftr p k in
  let r := p - Z.shiftl f k in
  let half := Z.shiftl 1 (k - 1) in
  if r <? half then f
  else if half <? r then f + 1
  else if Z.even f then f else f + 1.

(** [|x| * scale] rounded half to even, with the sign of [x]; [None] when [x]
    is infinite or not a number.  The exact value of a finite float is
    [m * 2^e]. *)
Definition round_scaled (scale : Z) (x : float) : option (bool * Z) :=
  match Prim2SF x with
  | S754_zero s => Some (s, 0)
  | S754_finite s m e =>
    Some (s, if 0 <=? e
             then Z.shiftl (Z.pos m * scale) e
             else round_half_even_shift (Z.pos m * scale) (- e))
  | _ => None
  end.

(** [round(x, 2)]: the decimal with two places nearest to the exact value of
    [x] (ties to even), then the float nearest to that decimal. *)
Definition round2 (x : float) : float :=
  match round_scaled 100 x with
  | Some (s, n) =>
    let y := PrimFloat.div (float_of_int n) (float_of_int 100) in
    if s then PrimFloat.opp y else y
  | None => x
  end.

(** [round(x)]: the nearest integer, ties to even; it raises on an infinity
    or a NaN ([None]). *)
Definition round_int (x : float) : option Z :=
  match round_scaled 1 x with
  | Some (s, n) => Some (if s then - n else n)
  | None => None
  end.

Record Scores : Type := {
  internships_score : float;
  projects_score : float;
  certifications_score : float;
  skills_score : float;
  achievements_score : float;
  total_score : Z
}.

Record MetricTable : Type := {
  for_internships : Z;
  for_projects : Z;
  for_certifications : Z;
  for_skills : Z;
  for_achievements : Z
}.

Definition weights : MetricTable :=
  {| for_internships := 30; for_projects := 25; for_certifications := 20;
     for_skills := 15; for_achievements := 10 |}.

Definition max_values : MetricTable :=
  {| for_internships := 3; for_projects := 4; for_certifications := 5;
     for_skills := 20; for_achievements := 5 |}.

(** The body of the loop for one key. *)
Definition metric_score (value max_value weight : Z) : float :=
  let capped_value := Z.min value max_value in
  let normalized :=
    PrimFloat.div (float_of_int capped_value) (float_of_int max_value) in
  round2 (PrimFloat.mul normalized (float_of_int weight)).

(** [sum(scores.values())]: from the integer 0, left to right.  (The sums
    met here are exact, so a compensated summation gives the same float.) *)
Definition sum_floats (l : list float) : float :=
  fold_left PrimFloat.add l (float_of_int 0).

(** [None]: [round] raised.  The total is an [int]: [round(x)] gives one and
    [round(total_score, 2)] leaves an [int] as it is. *)
Definition calculate_resume_score (metrics : Metrics) : option Scores :=
  let s1 := metric_score (internships metrics) (for_internships max_values)
                         (for_internships weights) in
  let s2 := metric_score (projects metrics) (for_projects max_values)
                         (for_projects weights) in
  let s3 := metric_score (certifications metrics) (for_certifications max_values)
                         (for_certifications weights) in
  let s4 := metric_score (skills metrics) (for_skills max_values)
                         (for_skills weights) in
  let s5 := metric_score (achievements metrics) (for_achievements max_values)
                         (for_achievements weights) in
  match round_int (sum_floats [s1; s2; s3; s4; s5]) with
  | Some total =>
    Some {| internships_score := s1; projects_score := s2;
            certifications_score := s3; skills_score := s4;
            achievements_score := s5; total_score := total |}
  | None => None
  end.

(** The exact value of a float in hundredths, when it is a whole number of
    hundredths. *)
Definition hundredths (x : float) : option Z :=
  match Prim2SF x with
  | S754_zero _ => Some 0
  | S754_finite s m e =>
    let p := Z.pos m * 100 in
    let n := if 0 <=? e then Some (Z.shiftl p e)
             else if p =? Z.shiftl (Z.shiftr p (- e)) (- e)
                  then Some (Z.shiftr p (- e))
                  else None in
    match n with
    | Some k => Some (if s then - k else k)
    | None => None
    end
  | _ => None
  end.

(* ------------------------------------------------------------------ *)
(** ** The vocabulary of the specification *)

(** The nonzero values of a signal vector. *)
Definition nonzero_signals (signals : list Z) : list Z :=
  filter (fun i => negb (i =? 0)) signals.

(** Every field of a metrics record within its counter's range. *)
Definition valid_metrics (m : Metrics) : Prop :=
  0 <= internships m <= 5 /\ 0 <= projects m <= 8 /\
  0 <= certifications m <= 10 /\ 0 <= skills m <= 30 /\
  0 <= achievements m <= 8.

(** The weighted contribution of a metric as the specification words it, in
    exact arithmetic and in hundredths: the value capped at the ceiling,
    divided by the ceiling, times the weight, rounded to two decimals. *)
Definition contribution_hundredths (ceiling weight value : Z) : Z :=
  round_half_even (100 * (Z.min value ceiling * weight)) ceiling.

(** A header phrase standing as a heading of the text [t]: a newline at
    offset [i], blanks, the phrase, blanks, then a colon or a newline, which
    ends at offset [e]. *)
Definition header_at (header t : str) (i e : nat) : Prop :=
  exists pre ws1 ws2 c rest,
    t = pre ++ NL :: ws1 ++ header ++ ws2 ++ c :: rest /\
    length pre = i /\
    forallb is_space ws1 = true /\ forallb is_space ws2 = true /\
    (c = chr ":" \/ c = NL) /\
    e = (i + 1 + length ws1 + length header + length ws2 + 1)%nat.

(** One of the candidate phrases stands as a heading at offset [i]. *)
Definition candidate_at (headers : list string) (t : str) (i e : nat) : Prop :=
  exists h, In h headers /\ header_at (u h) t i e.

(** What selecting the first occurrence in document order would mean: the
    section starts where the earliest heading among all candidates ends. *)
Definition selects_first_in_document {U : Unicode}
           (text : str) (headers : list string) : Prop :=
  forall i e,
    candidate_at headers (str_lower text) i e ->
    (forall j e', (j < i)%nat -> ~ candidate_at headers (str_lower text) j e') ->
    exists e0,
      candidate_at headers (str_lower text) i e0 /\
      fst (find_section text headers) = Z.of_nat e0.

(** The integers from 0 to [n]. *)
Definition upto (n : nat) : list Z := map Z.of_nat (seq 0 (S n)).

(** The character before the position reached once [ws] has been passed. *)
Fixpoint after (prev : option char) (ws : str) : option char :=
  match ws with
  | [] => prev
  | c :: ws' => after (Some c) ws'
  end.

(** A phrase between [pre] and [post] is delimited as a word: no word
    character just before it and none just after. *)
Definition word_delimited {U : Unicode} (pre post : str) : Prop :=
  word_before (after None pre, post) = false /\
  word_after (after None pre, post) = false.

(** Sample documents. *)
Definition two_project_headings : str :=
  unlines ["Resume"; "Personal Projects"; "alpha"; "Projects"; "beta"]%string.

Definition empty_certifications_section : str :=
  unlines ["Resume"; "Certifications:"; "none yet"; "Education:"; "Coursera"]%string.

Definition empty_projects_section : str :=
  unlines ["Resume"; "Projects:"; "nothing here"]%string.

Definition aws_and_coursera : str :=
  unlines ["Resume"; "AWS Certified on Coursera"]%string.

Definition aws_certified_once : str :=
  unlines ["Resume"; "I am AWS Certified."]%string.

Definition empty_experience_section : str :=
  unlines ["I was an intern"; "Experience:"; "nothing yet"]%string.

Definition heading_on_first_line : str :=
  unlines ["Projects:"; "Chat App | Python"]%string.

Definition metrics_at_caps : Metrics :=
  {| internships := 5; projects := 8; certifications := 10; skills := 30;
     achievements := 8 |}.

Definition metrics_at_ceilings : Metrics :=
  {| internships := 3; projects := 4; certifications := 5; skills := 20;
     achievements := 5 |}.

(** The contributions of a record in exact arithmetic, in hundredths, with
    the ceilings and the weights of the source. *)
Definition exact_contributions (m : Metrics) : list Z :=
  [contribution_hundredths 3 30 (internships m);
   contribution_hundredths 4 25 (projects m);
   contribution_hundredths 5 20 (certifications m);
   contribution_hundredths 20 15 (skills m);
   contribution_hundredths 5 10 (achievements m)].

Definition option_Z_eqb (x : option Z) (y : Z) : bool :=
  match x with
  | Some v => v =? y
  | None => false
  end.

(** The float computation of [calculate_resume_score] is exact on [m]: each
    score is the exact contribution and the total is their sum rounded half
    to even, within [0, 100]. *)
Definition score_exact_b (m : Metrics) : bool :=
  match calculate_resume_score m with
  | Some s =>
    let hs := exact_contributions m in
    option_Z_eqb (hundredths (internships_score s)) (nth 0 hs 0)
    && option_Z_eqb (hundredths (projects_score s)) (nth 1 hs 0)
    && option_Z_eqb (hundredths (certifications_score s)) (nth 2 hs 0)
    && option_Z_eqb (hundredths (skills_score s)) (nth 3 hs 0)
    && option_Z_eqb (hundredths (achievements_score s)) (nth 4 hs 0)
    && (total_score s =? round_half_even (sum_ints hs) 100)
    && (0 <=? total_score s) && (total_score s <=? 100)
  | None => false
  end.

(** [f] holds of every record with fields up to the given bounds. *)
Definition all_upto (f : Metrics -> bool) (n1 n2 n3 n4 n5 : nat) : bool :=
  forallb (fun a =>
  forallb (fun b =>
  forallb (fun c =>
  forallb (fun d =>
  forallb (fun e =>
    f {| internships := a; projects := b; certifications := c;
         skills := d; achievements := e |})
  (upto n5)) (upto n4)) (upto n3)) (upto n2)) (upto n1).

(** A record with each field capped at the source's ceiling. *)
Definition capped (m : Metrics) : Metrics :=
  {| internships := Z.min (internships m) 3;
     projects := Z.min (projects m) 4;
     certifications := Z.min (certifications m) 5;
     skills := Z.min (skills m) 20;
     achievements := Z.min (achievements m) 5 |}.

(** The patterns the source writes out, for [patterns_compile]. *)
Definition static_patterns : list string :=
  ["\n\s*"; "\s*[:\n]";
   "\n\s*(experience|work\s+experience|internships?|professional\s+experience|projects?|education|academic\s+background|certifications?|certificates?|achievements?|awards?|honors?|technical\s+skills?|skills?|extracurricular|activities|leadership|positions?\s+of\s+responsibility|training|courses?|publications?|references?)\s*[:\n]";
   "\n\s*[•●▪▸►→⦿◆■-]\s+";
   "(jan|feb|mar|apr|may|jun|jul|aug|sep|oct|nov|dec)[a-z]*[\s,.-]*\d{4}\s*[-–—to]\s*(jan|feb|mar|apr|may|jun|jul|aug|sep|oct|nov|dec|present|current|ongoing)";
   "\n\s*[A-Z][a-zA-Z\s&,.-]+(?:\s+[-–|]\s+|\s*\n\s*)(?:[A-Z][a-z]+(?:,\s*[A-Z]{2})?|\d{4})";
   "\b(intern|internship|co-?op|trainee)\b";
   "\n\s*[A-Z][a-zA-Z0-9\s]+\s*[|–—-]\s*[A-Za-z,\s.+#]+";
   "(web\s+application|mobile\s+app|system|platform|api|website|software|tool|dashboard|interface|database|algorithm|model|framework)";
   "github\.com|gitlab\.com|bitbucket\.org";
   "(developed|built|created)\s+(?:a|an|the)?\s*(?:\w+\s+){0,3}(application|system|platform|website|tool)";
   "\b(certified|certification|certificate|credential|diploma|course|training|completion)\b";
   "\b(20\d{2}|19\d{2})\b";
   "(aws\s+certified|google\s+certified|microsoft\s+certified|cisco\s+certified|python|java|machine\s+learning|data\s+science|web\s+development|full\s+stack)";
   "\b(coursera|udemy|nptel|aws\s+certified|google\s+certified)\b";
   "[,;]";
   "\b(nptel|coursera|udemy|aws\s+certified|google\s+certified)\b"]%string
  ++ cp_patterns ++ award_patterns ++ competition_patterns
  ++ leadership_patterns.

Definition compiles (r : regex) : bool :=
  match r with
  | Never => false
  | _ => true
  end.

(* ------------------------------------------------------------------ *)
(** ** [display_breakdown]: the tier and the recommendations it prints

    The function only prints.  What it decides is embedded: the tier (label
    and insight) chosen from the total, and the lines printed under
    "RECOMMENDATIONS", in order. *)

Definition breakdown_tier (total : Z) : string * string :=
  if 90 <=? total then
    ("🏆 S-TIER - Elite candidate",
     "Outstanding profile with exceptional depth across all areas.")%string
  else if 80 <=? total then
    ("🌟 A-TIER - Excellent candidate",
     "Strong profile with impressive experience and skills.")%string
  else if 70 <=? total then
    ("✨ B-TIER - Very good candidate",
     "Solid profile with good balance of experience and projects.")%string
  else if 55 <=? total then
    ("📈 C-TIER - Good candidate",
     "Decent profile with room for growth in some areas.")%string
  else if 40 <=? total then
    ("⚠️  D-TIER - Developing candidate",
     "Emerging profile - focus on building more projects and skills.")%string
  else
    ("🔴 E-TIER - Entry-level candidate",
     "Starting out - prioritize internships, projects, and certifications.")%string.

(** [print(line)] under a condition: the line printed, or nothing. *)
Definition printed_if (condition : bool) (line : string) : list string :=
  if condition then [line] else [].

Definition breakdown_recommendations (metrics : Metrics) (total : Z)
  : list string :=
  printed_if (internships metrics <? 2)
             "  • Gain more internship/work experience"
  ++ printed_if (projects metrics <? 3)
                "  • Build more technical projects to showcase your skills"
  ++ printed_if (certifications metrics <? 3)
                "  • Consider earning relevant certifications (Coursera, AWS, etc.)"
  ++ printed_if (skills metrics <? 15)
                "  • Expand your technical skill set"
  ++ printed_if (achievements metrics <? 2)
                "  • Participate in hackathons, competitions, or leadership roles"
  ++ printed_if (80 <=? total)
                "  ✓ Excellent profile! Focus on depth and advanced skills.".

(* ------------------------------------------------------------------ *)
(** ** [core/scorer.py]: [compute_elo] and [get_rating_tier] *)

Set Warnings "-inexact-float".

Record PlatformScores : Type := {
  leetcode_score : Z;
  github_score : Z;
  resume_score : Z
}.

(** [int(x)]: truncation towards zero; it raises on an infinity or a NaN
    ([None]). *)
Definition int_of_float (x : float) : option Z :=
  match Prim2SF x with
  | S754_zero _ => Some 0
  | S754_finite s m e =>
    let n := if 0 <=? e then Z.shiftl (Z.pos m) e
             else Z.shiftr (Z.pos m) (- e) in
    Some (if s then - n else n)
  | _ => None
  end.

(** The scores are the integers the scrapers and the resume scorer return. *)
Definition compute_elo (platform_scores : PlatformScores) : option Z :=
  let final_raw_score :=
    (0.4 * float_of_int (leetcode_score platform_scores)
     + 0.3 * float_of_int (github_score platform_scores)
     + 0.3 * float_of_int (resume_score platform_scores))%float in
  let elo :=
    (float_of_int 1000
     + (final_raw_score / float_of_int 100) * float_of_int 1500)%float in
  int_of_float elo.

Record RatingTier : Type := {
  tier : string;
  color : string;
  percentile : string;
  description : string
}.

Definition get_rating_tier (elo : Z) : RatingTier :=
  if 2300 <=? elo then
    {| tier := "Grandmaster"; color := "#FF6B6B"; percentile := "Top 1%";
       description := "Elite developer" |}
  else if 2100 <=? elo then
    {| tier := "Master"; color := "#FFD93D"; percentile := "Top 5%";
       description := "Expert developer" |}
  else if 1900 <=? elo then
    {| tier := "Diamond"; color := "#6BCB77"; percentile := "Top 15%";
       description := "Advanced developer" |}
  else if 1700 <=? elo then
    {| tier := "Platinum"; color := "#4D96FF"; percentile := "Top 30%";
       description := "Proficient developer" |}
  else if 1500 <=? elo then
    {| tier := "Gold"; color := "#F4A460"; percentile := "Top 50%";
       description := "Competent developer" |}
  else if 1300 <=? elo then
    {| tier := "Silver"; color := "#C0C0C0"; percentile := "Top 70%";
       description := "Developing skills" |}
  else
    {| tier := "Bronze"; color := "#CD7F32"; percentile := "Entry level";
       description := "Beginner" |}.

(* ------------------------------------------------------------------ *)
(** ** [main.py]: [calculate_rating]

    The scrapers and the text extraction are outside the engine and are
    taken as given; the upload has been written to [tmp_file_path].  An
    exception anywhere becomes an HTTP error of status 400. *)

Record ResumeData : Type := {
  rd_internships : Z;
  rd_projects : Z;
  rd_certifications : Z;
  rd_skills : Z;
  rd_achievements : Z;
  rd_score : Z
}.

Record RatingResponse (L G : Type) : Type := {
  username : string;
  elo_rating : Z;
  platform_scores : PlatformScores;
  raw_leetcode : L;
  raw_github : G;
  raw_resume : ResumeData
}.

Inductive HTTPException (E : Type) : Type :=
| HTTP400 (detail : E).

Arguments HTTP400 {E} detail.

Section CalculateRating.
Context {U : Unicode}.
Variable E : Type.
(** [ValueError("Could not extract text from resume")],
    [ValueError("Failed to parse resume")] and what [round] or [int] raise on
    a float that is not finite. *)
Variables (value_error failed_to_parse not_finite : E).
(** The dictionaries the scrapers return, with their ["score"] entry. *)
Variables (L G : Type) (lc_score : L -> Z) (gh_score : G -> Z).
Variable get_leetcode_data : string -> outcome E L.
Variable get_github_data : string -> outcome E G.
Variable extract_resume_text : string -> outcome E str.

(** The body of the outer [try] block. *)
Definition rating_body (leetcode_username github_username tmp_file_path : string)
  : outcome E (RatingResponse L G) :=
  leetcode_data <- get_leetcode_data leetcode_username ;;
  github_data <- get_github_data github_username ;;
  match parse_resume value_error extract_resume_text tmp_file_path with
  | None => Raises failed_to_parse
  | Some metrics =>
    match calculate_resume_score metrics with
    | None => Raises not_finite
    | Some scores =>
      let resume_data :=
        {| rd_internships := internships metrics;
           rd_projects := projects metrics;
           rd_certifications := certifications metrics;
           rd_skills := skills metrics;
           rd_achievements := achievements metrics;
           rd_score := total_score scores |} in
      let scores_of_platforms :=
        {| leetcode_score := lc_score leetcode_data;
           github_score := gh_score github_data;
           resume_score := rd_score resume_data |} in
      match compute_elo scores_of_platforms with
      | None => Raises not_finite
      | Some elo =>
        Returns {| username := leetcode_username;
                   elo_rating := elo;
                   platform_scores := scores_of_platforms;
                   raw_leetcode := leetcode_data;
                   raw_github := github_data;
                   raw_resume := resume_data |}
      end
    end
  end.

(** [except Exception as e: raise HTTPException(status_code=400, ...)] *)
Definition calculate_rating
           (leetcode_username github_username tmp_file_path : string)
  : outcome (HTTPException E) (RatingResponse L G) :=
  match rating_body leetcode_username github_username tmp_file_path with
  | Returns response => Returns response
  | Raises e => Raises (HTTP400 e)
  end.
End CalculateRating.

(** The rating in exact arithmetic, rounded down:
    [1000 + ((0.4 l + 0.3 g + 0.3 r) / 100) * 1500 = 1000 + 6 l + 4.5 g + 4.5 r]. *)
Definition exact_elo_floor (ps : PlatformScores) : Z :=
  (2000 + 12 * leetcode_score ps + 9 * github_score ps + 9 * resume_score ps) / 2.

(** The three scores within [0, 100]. *)
Definition scores_in_range (ps : PlatformScores) : Prop :=
  0 <= leetcode_score ps <= 100 /\ 0 <= github_score ps <= 100 /\
  0 <= resume_score ps <= 100.

(** *** Checking [compute_elo] on all scores within 0 and 100

    The weighted sum takes two additions.  The floats the first one can give
    are collected by the exact value they stand for, [(4 l + 3 g) / 10]; the
    rest of the computation is then checked for each of them and each resume
    score. *)

(** [0.4 * leetcode_score + 0.3 * github_score] *)
Definition weighted_pair (l g : Z) : float :=
  (0.4 * float_of_int l + 0.3 * float_of_int g)%float.

(** The rest of [compute_elo], from the sum of the first two terms. *)
Definition elo_of_pair (a : float) (r : Z) : option Z :=
  let final_raw_score := (a + 0.3 * float_of_int r)%float in
  let elo :=
    (float_of_int 1000
     + (final_raw_score / float_of_int 100) * float_of_int 1500)%float in
  int_of_float elo.

Definition float_mem (x : float) (l : list float) : bool :=
  existsb (PrimFloat.Leibniz.eqb x) l.

(** The distinct floats [weighted_pair l g] with [4 l + 3 g = k]. *)
Definition pair_sums (k : Z) : list float :=
  fold_right
    (fun l sums =>
       let g3 := k - 4 * l in
       if (0 <=? g3) && (g3 <=? 300) && (g3 mod 3 =? 0)
       then
         let a := weighted_pair l (g3 / 3) in
         if float_mem a sums then sums else a :: sums
       else sums)
    [] (upto 100).

(** From the sum [a] of the first two terms, with [4 l + 3 g = k], and the
    resume score [r], the float computation gives the exact rating rounded
    down or one less, not below 1000, and the tier of the exact rating. *)
Definition elo_close_at (k : Z) (a : float) (r : Z) : bool :=
  let exact := (2000 + 3 * (k + 3 * r)) / 2 in
  match elo_of_pair a r with
  | Some e =>
    ((e =? exact) || (e =? exact - 1))
    && (1000 <=? e)
    && String.eqb (tier (get_rating_tier e)) (tier (get_rating_tier exact))
  | None => false
  end.

(** [f] holds of every exact value [k], every float of [pair_sums k] and
    every resume score. *)
Definition all_pair_sums (f : Z -> float -> Z -> bool) : bool :=
  forallb (fun k =>
  forallb (fun a =>
  forallb (f k a) (upto 100)) (pair_sums k)) (upto 700).

(** The tiers of [get_rating_tier], lowest first: bands of 200 points. *)
Definition rating_tiers : list string :=
  ["Bronze"; "Silver"; "Gold"; "Platinum"; "Diamond"; "Master";
   "Grandmaster"]%string.

Definition rating_band (elo : Z) : nat :=
  Z.to_nat (Z.min 6 (Z.max 0 ((elo - 1100) / 200))).

(** Counts are not negative. *)
Definition nonneg_metrics (m : Metrics) : Prop :=
  0 <= internships m /\ 0 <= projects m /\ 0 <= certifications m /\
  0 <= skills m /\ 0 <= achievements m.

(** [m'] has at least as much as [m] in every field, as far as the
    normaliser looks: up to its ceilings 3, 4, 5, 20 and 5. *)
Definition capped_le (m m' : Metrics) : Prop :=
  Z.min (internships m) 3 <= Z.min (internships m') 3 /\
  Z.min (projects m) 4 <= Z.min (projects m') 4 /\
  Z.min (certifications m) 5 <= Z.min (certifications m') 5 /\
  Z.min (skills m) 20 <= Z.min (skills m') 20 /\
  Z.min (achievements m) 5 <= Z.min (achievements m') 5.

(** The tiers of [display_breakdown], lowest first, and the number of
    thresholds (40, 55, 70, 80, 90) a total reaches. *)
Definition resume_tiers : list string :=
  ["🔴 E-TIER - Entry-level candidate"; "⚠️  D-TIER - Developing candidate";
   "📈 C-TIER - Good candidate"; "✨ B-TIER - Very good candidate";
   "🌟 A-TIER - Excellent candidate"; "🏆 S-TIER - Elite candidate"]%string.

Definition resume_tier_rank (total : Z) : nat :=
  length (filter (fun threshold => threshold <=? total) [40; 55; 70; 80; 90]).

(** The total of a record, when [calculate_resume_score] returns. *)
Definition total_of (m : Metrics) : option Z :=
  option_map total_score (calculate_resume_score m).


(** A character class that holds lower-case Latin letters only. *)
Definition letter_item (i : citem) : bool :=
  match i with
  | CLit c => ascii_lower c
  | CRange lo hi => ascii_lower lo && ascii_lower hi
  | CSpace | CDigit | CWord => false
  end.

(** Whether every match of the pattern passes a lower-case Latin letter. *)
Fixpoint needs_letter (r : regex) : bool :=
  match r with
  | Never => true
  | OneOf cs => forallb letter_item cs
  | Seq a b => needs_letter a || needs_letter b
  | Alt a b => needs_letter a && needs_letter b
  | Eps | WordB | Star _ => false
  end.

(** A string without a lower-case Latin letter. *)
Definition letterless (s : str) : bool :=
  forallb (fun c => negb (ascii_lower c)) s.

Definition no_metrics : Metrics :=
  {| internships := 0; projects := 0; certifications := 0; skills := 0;
     achievements := 0 |}.

(** The character every match of the pattern starts with, when the pattern
    shows one. *)
Fixpoint head_char (r : regex) : option char :=
  match r with
  | OneOf [CLit c] => Some c
  | Seq a _ => head_char a
  | _ => None
  end.


(** Sample inputs of the rest of the pipeline. *)
Definition scores_losing_a_point : PlatformScores :=
  {| leetcode_score := 3; github_score := 96; resume_score := 98 |}.

Definition scores_one_better : PlatformScores :=
  {| leetcode_score := 4; github_score := 96; resume_score := 98 |}.

Definition no_letters : str :=
  unlines ["2024 - 2025"; "+91 98765 43210"; "100% (1/1)"]%string.



(* ------------------------------------------------------------------ *)
(** * Properties *)

(** ** Every pattern of the source compiles *)

Lemma patterns_compile :
  forallb (fun p => compiles (re p)) static_patterns = true /\
  forallb (fun ws => compiles (word_alternation ws))
          [role_keywords; action_verbs; platforms] = true /\
  forallb (fun s => compiles (skill_regex (u s))) all_skills = true.
Proof. vm_compute. repeat split. Qed.

Lemma patterns_consume :
  forallb (fun p => negb (nullable (re p))) static_patterns = true /\
  forallb (fun ws => negb (nullable (word_alternation ws)))
          [role_keywords; action_verbs; platforms] = true /\
  forallb (fun s => negb (nullable (skill_regex (u s)))) all_skills = true /\
  forall h, nullable (header_pattern h) = false.
Proof.
  split; [vm_compute; reflexivity|].
  split; [vm_compute; reflexivity|].
  split; [vm_compute; reflexivity|].
  intros h. unfold header_pattern.
  replace (re "\n\s*") with (Seq (OneOf [CLit 10%N]) (Star [CSpace]))
    by (vm_compute; reflexivity).
  reflexivity.
Qed.

Section Consuming.
Context {U : Unicode}.

Lemma star_run_shrinks (cs : charset) (s : str) :
  forall p st', In st' (star_run cs p s) ->
                (length (snd st') <= length s)%nat.
Proof.
  induction s as [|c s IH]; intros p st'; simpl.
  - intros [<-|[]]. simpl. lia.
  - destruct (in_set cs c).
    + rewrite in_app_iff. intros [H|[<-|[]]]; [|simpl; lia].
      apply IH in H. lia.
    + intros [<-|[]]. simpl. lia.
Qed.

(** A match never moves backwards, and a pattern that is not [nullable]
    passes at least one character. *)
Lemma run_shrinks (r : regex) :
  forall st st', In st' (run r st) ->
    (length (snd st') <= length (snd st))%nat /\
    (nullable r = false -> (length (snd st') < length (snd st))%nat).
Proof.
  induction r as [| |cs| |a IHa b IHb|a IHa b IHb|cs]; intros st st'; simpl.
  - intros [<-|[]]. split; [lia|discriminate].
  - intros [].
  - destruct (snd st) as [|c s']; [intros []|].
    destruct (in_set cs c); [|intros []].
    intros [<-|[]]. simpl. split; [lia|intros _; lia].
  - destruct (xorb _ _); [|intros []].
    intros [<-|[]]. split; [lia|discriminate].
  - intros H. apply in_flat_map in H. destruct H as (mid & Ha & Hb).
    destruct (IHa _ _ Ha) as [Ha1 Ha2]. destruct (IHb _ _ Hb) as [Hb1 Hb2].
    split; [lia|]. intros Hn. apply andb_false_iff in Hn.
    destruct Hn as [Hn|Hn]; [specialize (Ha2 Hn)|specialize (Hb2 Hn)]; lia.
  - rewrite in_app_iff. intros [H|H].
    + destruct (IHa _ _ H) as [H1 H2]. split; [exact H1|].
      intros Hn. apply orb_false_iff in Hn. apply H2, Hn.
    + destruct (IHb _ _ H) as [H1 H2]. split; [exact H1|].
      intros Hn. apply orb_false_iff in Hn. apply H2, Hn.
  - intros H. apply star_run_shrinks in H. split; [exact H|discriminate].
Qed.
End Consuming.

(** ** Sorting and the middle element *)

Lemma insert_sorted_perm (x : Z) (l : list Z) :
  Permutation (x :: l) (insert_sorted x l).
Proof.
  induction l as [|y l IH]; simpl.
  - apply Permutation_refl.
  - destruct (x <=? y).
    + apply Permutation_refl.
    + eapply perm_trans; [apply perm_swap|].
      apply perm_skip, IH.
Qed.

Lemma sort_ints_perm (l : list Z) : Permutation (sort_ints l) l.
Proof.
  induction l as [|x l IH]; simpl.
  - constructor.
  - apply Permutation_sym.
    eapply perm_trans; [|apply insert_sorted_perm].
    apply perm_skip, Permutation_sym, IH.
Qed.

Lemma insert_sorted_sorted (x : Z) (l : list Z) :
  Sorted Z.le l -> Sorted Z.le (insert_sorted x l).
Proof.
  induction l as [|y l IH]; simpl; intros Hs.
  - repeat constructor.
  - destruct (x <=? y) eqn:Hxy.
    + constructor; [exact Hs|]. constructor. apply Z.leb_le, Hxy.
    + apply Z.leb_gt in Hxy.
      inversion Hs as [|? ? Hs' Hhd]; subst.
      constructor; [apply IH, Hs'|].
      destruct l as [|z l']; simpl.
      * constructor. lia.
      * destruct (x <=? z); constructor; [lia|].
        inversion Hhd; subst. assumption.
Qed.

Lemma sort_ints_sorted (l : list Z) : Sorted Z.le (sort_ints l).
Proof.
  induction l as [|x l IH]; simpl.
  - constructor.
  - apply insert_sorted_sorted, IH.
Qed.

Lemma sort_ints_length (l : list Z) : length (sort_ints l) = length l.
Proof. apply Permutation_length, sort_ints_perm. Qed.

Lemma valid_is_nonzero (l : list Z) :
  Forall (fun i => 0 <= i) l -> valid_indicators l = nonzero_signals l.
Proof.
  intros H. unfold valid_indicators, nonzero_signals.
  apply filter_ext_in. intros a Ha.
  rewrite Forall_forall in H. specialize (H a Ha).
  destruct (Z.ltb_spec 0 a), (Z.eqb_spec a 0); simpl; try reflexivity; lia.
Qed.

Lemma median_of_valid_spec (l : list Z) :
  valid_indicators l <> [] ->
  median_of_valid l =
  nth_error (sort_ints (valid_indicators l)) (length (valid_indicators l) / 2).
Proof.
  intros Hne. unfold median_of_valid.
  destruct (valid_indicators l) as [|a v] eqn:Hv; [contradiction|].
  symmetry. rewrite <- Hv.
  assert (Hlt : (length (valid_indicators l) / 2 < length (sort_ints (valid_indicators l)))%nat).
  { rewrite sort_ints_length. apply Nat.div_lt; [rewrite Hv; simpl|]; lia. }
  rewrite (nth_error_nth' _ 0 Hlt). reflexivity.
Qed.

Lemma median_of_valid_in (l : list Z) (v : Z) :
  median_of_valid l = Some v -> In v l /\ 0 < v.
Proof.
  intros H.
  assert (Hne : valid_indicators l <> []).
  { unfold median_of_valid in H. destruct (valid_indicators l); congruence. }
  rewrite (median_of_valid_spec _ Hne) in H.
  apply nth_error_In in H.
  apply (Permutation_in _ (sort_ints_perm _)) in H.
  unfold valid_indicators in H. apply filter_In in H.
  destruct H as [Hin Hpos]. split; [exact Hin|]. apply Z.ltb_lt, Hpos.
Qed.

Lemma fold_max_ge (l : list Z) (x : Z) :
  x <= fold_left Z.max l x /\ Forall (fun y => y <= fold_left Z.max l x) l.
Proof.
  revert x. induction l as [|y l IH]; intros x; simpl.
  - split; [lia|constructor].
  - destruct (IH (Z.max x y)) as [H1 H2]. split; [lia|].
    constructor; [lia|exact H2].
Qed.

Lemma fold_max_in (l : list Z) (x : Z) :
  fold_left Z.max l x = x \/ In (fold_left Z.max l x) l.
Proof.
  revert x. induction l as [|y l IH]; intros x; simpl.
  - left; reflexivity.
  - destruct (IH (Z.max x y)) as [H|H].
    + rewrite H. destruct (Z.max_spec x y) as [[_ ->]|[_ ->]]; auto.
    + right; right; exact H.
Qed.

Lemma max_of_spec (l : list Z) (m : Z) :
  max_of l = Some m -> In m l /\ Forall (fun y => y <= m) l.
Proof.
  destruct l as [|x l]; simpl; [discriminate|].
  intros H; injection H as <-.
  destruct (fold_max_ge l x) as [H1 H2]. split.
  - destruct (fold_max_in l x) as [->|Hin]; auto.
  - constructor; assumption.
Qed.

(** C4. On a nonempty vector of nonnegative signals, median reconciliation
    returns the element of index [length / 2] of the sorted nonzero values
    (and nothing when every signal is zero), and max reconciliation returns
    the greatest element; [2; 4; 6] gives 4, [0; 0; 5] gives 5 and the maximum
    of [1; 3; 2] is 3. *)
Theorem aggregator_median_and_max (signals : list Z) :
  Forall (fun i => 0 <= i) signals ->
  signals <> [] ->
  (nonzero_signals signals <> [] ->
   exists sorted v,
     Permutation sorted (nonzero_signals signals) /\
     Sorted Z.le sorted /\
     nth_error sorted (length sorted / 2) = Some v /\
     median_of_valid signals = Some v) /\
  (nonzero_signals signals = [] -> median_of_valid signals = None) /\
  (exists m,
     max_of signals = Some m /\ In m signals /\
     Forall (fun y => y <= m) signals) /\
  median_of_valid [2; 4; 6] = Some 4 /\
  median_of_valid [0; 0; 5] = Some 5 /\
  max_of [1; 3; 2] = Some 3.
Proof.
  intros Hnonneg Hne.
  pose proof (valid_is_nonzero Hnonneg) as Hv.
  repeat split; try reflexivity.
  - intros Hnz. rewrite <- Hv in Hnz |- *.
    destruct (nth_error (sort_ints (valid_indicators signals))
                        (length (valid_indicators signals) / 2)) as [v|] eqn:Hn.
    + exists (sort_ints (valid_indicators signals)), v.
      split; [apply sort_ints_perm|].
      split; [apply sort_ints_sorted|].
      rewrite sort_ints_length.
      split; [exact Hn|].
      rewrite median_of_valid_spec by exact Hnz. exact Hn.
    + exfalso. apply nth_error_None in Hn.
      rewrite sort_ints_length in Hn.
      destruct (valid_indicators signals) as [|a w]; [contradiction|].
      simpl length in Hn.
      assert (S (length w) / 2 < S (length w))%nat by (apply Nat.div_lt; lia).
      lia.
  - intros Hz. unfold median_of_valid. rewrite Hv, Hz. reflexivity.
  - destruct signals as [|x l]; [contradiction|].
    exists (fold_left Z.max l x).
    split; [reflexivity|].
    apply max_of_spec. reflexivity.
Qed.

Lemma aggregator_median_and_max_witness :
  exists sorted v,
    Permutation sorted (nonzero_signals [0; 6; 2; 4]) /\
    Sorted Z.le sorted /\
    nth_error sorted (length sorted / 2) = Some v /\
    median_of_valid [0; 6; 2; 4] = Some v.
Proof.
  refine (proj1 (@aggregator_median_and_max [0; 6; 2; 4] _ _) _).
  - repeat constructor; lia.
  - discriminate.
  - discriminate.
Defined.

(** ** The counters stay within their ranges *)

Section Bounds.
Context {U : Unicode}.

Lemma re_count_nonneg (r : regex) (s : str) : 0 <= re_count r s.
Proof. unfold re_count. apply Nat2Z.is_nonneg. Qed.

Lemma len_nonneg {A} (l : list A) : 0 <= len l.
Proof. unfold len. apply Nat2Z.is_nonneg. Qed.

Lemma count_internships_bounds (text : str) :
  0 <= count_internships text <= 5.
Proof.
  unfold count_internships.
  destruct (find_section text exp_headers) as [start end_].
  destruct (start =? -1); [lia|].
  destruct (median_of_valid _) as [count|] eqn:Hm; [|lia].
  apply median_of_valid_in in Hm. lia.
Qed.

Lemma count_projects_bounds (text : str) :
  0 <= count_projects text <= 8.
Proof.
  unfold count_projects.
  destruct (find_section text project_headers) as [start end_].
  destruct (start =? -1); [lia|].
  destruct (median_of_valid _) as [count|]; lia.
Qed.

(** Where a signal fires in a located projects section, the floor holds. *)
Lemma count_projects_floor (text : str) (start end_ : Z) :
  find_section text project_headers = (start, end_) -> start <> -1 ->
  valid_indicators (project_indicators text (str_lower text) start end_) <> [] ->
  1 <= count_projects text <= 8.
Proof.
  intros Hfs Hstart Hv. unfold count_projects.
  rewrite Hfs. apply Z.eqb_neq in Hstart. rewrite Hstart.
  unfold median_of_valid.
  destruct (valid_indicators _) as [|a v]; [contradiction|]. lia.
Qed.

Lemma count_certifications_bounds (text : str) :
  0 <= count_certifications text <= 10.
Proof.
  unfold count_certifications.
  destruct (find_section text cert_headers) as [start end_].
  destruct (start =? -1); [lia|].
  destruct (max_of _) as [count|] eqn:Hm; [|lia].
  apply max_of_spec in Hm. destruct Hm as [Hin _].
  assert (0 <= count); [|lia].
  unfold certification_indicators in Hin. simpl in Hin.
  pose proof re_count_nonneg as Hc.
  destruct Hin as [<-|[<-|[<-|[<-|[<-|[]]]]]]; try apply Hc.
  apply Z.div_pos; [apply Hc|lia].
Qed.

Lemma count_skills_bounds (text : str) :
  0 <= count_skills text <= 30.
Proof.
  unfold count_skills.
  destruct (find_section text skill_headers) as [start end_].
  set (found := find_skills _ _ _).
  pose proof (len_nonneg found) as Hf.
  set (bonus := if start =? -1 then 0 else _).
  assert (Hb : 0 <= bonus).
  { subst bonus. destruct (start =? -1); [lia|].
    destruct (Z.ltb_spec (len found)
                (re_count (re "[,;]") (slice (str_lower text) start end_))); lia. }
  assert (0 <= bonus / 2) by (apply Z.div_pos; lia).
  lia.
Qed.

Lemma count_achievements_bounds (text : str) :
  0 <= count_achievements text <= 8.
Proof.
  unfold count_achievements.
  pose proof re_count_nonneg as Hc.
  destruct (find_section text achievement_headers) as [s1 e1].
  destruct (find_section text extra_headers) as [s2 e2].
  set (t1 := if s1 =? -1 then 0 else _).
  assert (H1 : 0 <= t1).
  { subst t1. destruct (s1 =? -1); [lia|].
    unfold achievement_section_signal.
    specialize (Hc bullet_pattern (slice (str_lower text) s1 e1)). lia. }
  set (t2 := if s2 =? -1 then t1 else _).
  assert (H2 : 0 <= t2).
  { subst t2. destruct (s2 =? -1); lia. }
  destruct (t2 =? 0); lia.
Qed.

Lemma resume_metrics_valid (text : str) : valid_metrics (resume_metrics text).
Proof.
  unfold valid_metrics, resume_metrics; simpl.
  pose proof (count_internships_bounds text).
  pose proof (count_projects_bounds text).
  pose proof (count_certifications_bounds text).
  pose proof (count_skills_bounds text).
  pose proof (count_achievements_bounds text).
  lia.
Qed.
End Bounds.

(** ** The score normaliser, computed in floats, is exact *)

(** Rounding by shifts is rounding the quotient by the power of two. *)
Lemma round_half_even_shift_spec (p k : Z) :
  0 <= p -> 0 < k ->
  round_half_even_shift p k = round_half_even p (2 ^ k).
Proof.
  intros Hp Hk. unfold round_half_even_shift, round_half_even.
  rewrite Z.shiftr_div_pow2, !Z.shiftl_mul_pow2 by lia.
  rewrite Z.mul_1_l.
  assert (Hq : 0 < 2 ^ (k - 1)) by (apply Z.pow_pos_nonneg; lia).
  assert (H2 : 2 ^ k = 2 * 2 ^ (k - 1)).
  { replace k with (Z.succ (k - 1)) at 1 by lia.
    apply Z.pow_succ_r. lia. }
  pose proof (Z.div_mod p (2 ^ k) ltac:(lia)) as Hdm.
  replace (p - p / 2 ^ k * 2 ^ k) with (p mod 2 ^ k) by lia.
  destruct (Z.ltb_spec (p mod 2 ^ k) (2 ^ (k - 1))),
           (Z.ltb_spec (2 * (p mod 2 ^ k)) (2 ^ k)); try lia.
  destruct (Z.ltb_spec (2 ^ (k - 1)) (p mod 2 ^ k)),
           (Z.ltb_spec (2 ^ k) (2 * (p mod 2 ^ k))); try lia;
    reflexivity.
Qed.

Lemma in_upto (n : nat) (x : Z) : 0 <= x <= Z.of_nat n -> In x (upto n).
Proof.
  intros H. unfold upto. apply in_map_iff.
  exists (Z.to_nat x). split; [lia|].
  apply in_seq. lia.
Qed.

Lemma all_upto_spec (f : Metrics -> bool) (n1 n2 n3 n4 n5 : nat) :
  all_upto f n1 n2 n3 n4 n5 = true ->
  forall a b c d e,
    0 <= a <= Z.of_nat n1 -> 0 <= b <= Z.of_nat n2 -> 0 <= c <= Z.of_nat n3 ->
    0 <= d <= Z.of_nat n4 -> 0 <= e <= Z.of_nat n5 ->
    f {| internships := a; projects := b; certifications := c;
         skills := d; achievements := e |} = true.
Proof.
  unfold all_upto. intros Hall a b c d e Ha Hb Hc Hd He.
  rewrite forallb_forall in Hall.
  specialize (Hall a (in_upto _ Ha)).
  rewrite forallb_forall in Hall.
  specialize (Hall b (in_upto _ Hb)).
  rewrite forallb_forall in Hall.
  specialize (Hall c (in_upto _ Hc)).
  rewrite forallb_forall in Hall.
  specialize (Hall d (in_upto _ Hd)).
  rewrite forallb_forall in Hall.
  exact (Hall e (in_upto _ He)).
Qed.

Lemma score_exact_computed : all_upto score_exact_b 3 4 5 20 5 = true.
Proof. vm_compute. reflexivity. Qed.

Lemma metric_score_capped (v c w : Z) :
  metric_score (Z.min v c) c w = metric_score v c w.
Proof. unfold metric_score. rewrite <- Z.min_assoc, Z.min_id. reflexivity. Qed.

Lemma contribution_capped (v c w : Z) :
  contribution_hundredths c w (Z.min v c) = contribution_hundredths c w v.
Proof.
  unfold contribution_hundredths. rewrite <- Z.min_assoc, Z.min_id. reflexivity.
Qed.

Lemma calculate_capped (m : Metrics) :
  calculate_resume_score (capped m) = calculate_resume_score m.
Proof.
  unfold calculate_resume_score, capped; simpl.
  rewrite !metric_score_capped. reflexivity.
Qed.

Lemma score_exact_capped (m : Metrics) :
  score_exact_b (capped m) = score_exact_b m.
Proof.
  unfold score_exact_b. rewrite calculate_capped.
  unfold exact_contributions, capped; simpl.
  rewrite !contribution_capped. reflexivity.
Qed.

(** For every record of nonnegative counts the float computation is exact. *)
Lemma score_exact (m : Metrics) :
  0 <= internships m -> 0 <= projects m -> 0 <= certifications m ->
  0 <= skills m -> 0 <= achievements m ->
  score_exact_b m = true.
Proof.
  intros H1 H2 H3 H4 H5.
  rewrite <- score_exact_capped.
  apply (all_upto_spec _ _ _ _ _ _ score_exact_computed); lia.
Qed.

Lemma option_Z_eqb_eq (x : option Z) (y : Z) :
  option_Z_eqb x y = true -> x = Some y.
Proof.
  destruct x as [v|]; simpl; [|discriminate].
  intros H. apply Z.eqb_eq in H. congruence.
Qed.

Lemma score_exact_inv (m : Metrics) :
  score_exact_b m = true ->
  exists s,
    calculate_resume_score m = Some s /\
    map hundredths
        [internships_score s; projects_score s; certifications_score s;
         skills_score s; achievements_score s]
    = map Some (exact_contributions m) /\
    total_score s = round_half_even (sum_ints (exact_contributions m)) 100 /\
    0 <= total_score s <= 100.
Proof.
  unfold score_exact_b.
  destruct (calculate_resume_score m) as [s|]; [|discriminate].
  intros H. repeat (apply andb_prop in H; destruct H as [H ?]).
  exists s. split; [reflexivity|].
  repeat match goal with
         | E : option_Z_eqb _ _ = true |- _ => apply option_Z_eqb_eq in E
         end.
  split.
  - unfold exact_contributions in *. simpl in *. congruence.
  - split; [apply Z.eqb_eq; assumption|].
    split; apply Z.leb_le; assumption.
Qed.

Lemma round_half_even_bounds (p q k : Z) :
  0 < q -> 0 <= p <= k * q -> 0 <= round_half_even p q <= k.
Proof.
  intros Hq Hp. unfold round_half_even.
  pose proof (Z.div_mod p q ltac:(lia)) as Hdm.
  pose proof (Z.mod_pos_bound p q Hq) as Hm.
  assert (Hf0 : 0 <= p / q) by (apply Z.div_pos; lia).
  assert (Hfk : p / q <= k).
  { apply Z.div_le_upper_bound; [lia|]. lia. }
  assert (Hlt : p / q = k -> p mod q = 0) by nia.
  destruct (Z.ltb_spec (2 * (p mod q)) q); [lia|].
  destruct (Z.ltb_spec q (2 * (p mod q))).
  - assert (p / q <> k) by lia. lia.
  - destruct (Z.even (p / q)); [lia|].
    assert (p / q <> k) by lia. lia.
Qed.

Lemma contribution_bounds (c w v : Z) :
  0 < c -> 0 <= w -> 0 <= v ->
  0 <= contribution_hundredths c w v <= 100 * w.
Proof.
  intros Hc Hw Hv. unfold contribution_hundredths.
  apply round_half_even_bounds; [exact Hc|].
  assert (0 <= Z.min v c <= c) by lia. nia.
Qed.

(** C1, as the code has it.  For every valid metrics record each weighted
    contribution is the value capped at the metric's ceiling, divided by that
    ceiling (so within [0, 1]) and multiplied by the metric's weight, rounded
    to two decimals, where the ceilings are those of the normaliser: 3 for
    internships, 4 for projects, 5 for certifications, 20 for skills and 5
    for achievements (weights 30, 25, 20, 15, 10).  Values are in hundredths;
    the float computation is exact. *)
Theorem contributions_use_normaliser_ceilings (m : Metrics) :
  valid_metrics m ->
  exists s,
    calculate_resume_score m = Some s /\
    hundredths (internships_score s)
      = Some (contribution_hundredths 3 30 (internships m)) /\
    hundredths (projects_score s)
      = Some (contribution_hundredths 4 25 (projects m)) /\
    hundredths (certifications_score s)
      = Some (contribution_hundredths 5 20 (certifications m)) /\
    hundredths (skills_score s)
      = Some (contribution_hundredths 20 15 (skills m)) /\
    hundredths (achievements_score s)
      = Some (contribution_hundredths 5 10 (achievements m)) /\
    Forall2 (fun h w => 0 <= h <= 100 * w)
            (exact_contributions m) [30; 25; 20; 15; 10].
Proof.
  intros (H1 & H2 & H3 & H4 & H5).
  destruct (@score_exact_inv m) as (s & Hs & Hh & _).
  { apply score_exact; lia. }
  exists s. split; [exact Hs|].
  unfold exact_contributions in Hh. simpl in Hh.
  injection Hh as -> -> -> -> ->.
  repeat split; try reflexivity.
  unfold exact_contributions.
  repeat constructor; apply contribution_bounds; lia.
Qed.

Lemma contributions_use_normaliser_ceilings_witness :
  exists s,
    calculate_resume_score metrics_at_caps = Some s /\
    hundredths (internships_score s) = Some 3000 /\
    hundredths (projects_score s) = Some 2500 /\
    hundredths (certifications_score s) = Some 2000 /\
    hundredths (skills_score s) = Some 1500 /\
    hundredths (achievements_score s) = Some 1000 /\
    Forall2 (fun h w => 0 <= h <= 100 * w)
            (exact_contributions metrics_at_caps) [30; 25; 20; 15; 10].
Proof.
  apply (@contributions_use_normaliser_ceilings metrics_at_caps).
  unfold valid_metrics, metrics_at_caps; simpl. lia.
Defined.

(** C1, as the specification words it, fails: with the counters' caps
    (5, 8, 10, 30, 8) as ceilings a record of 3 internships, 4 projects,
    5 certifications, 20 skills and 5 achievements would contribute 18.00,
    12.50, 10.00, 10.00 and 6.25, and the code gives 30.00, 25.00, 20.00,
    15.00 and 10.00. *)
Lemma counter_caps_are_not_the_ceilings :
  valid_metrics metrics_at_ceilings /\
  option_map
    (fun s => map hundredths
                  [internships_score s; projects_score s; certifications_score s;
                   skills_score s; achievements_score s])
    (calculate_resume_score metrics_at_ceilings)
  = Some [Some 3000; Some 2500; Some 2000; Some 1500; Some 1000] /\
  [contribution_hundredths 5 30 (internships metrics_at_ceilings);
   contribution_hundredths 8 25 (projects metrics_at_ceilings);
   contribution_hundredths 10 20 (certifications metrics_at_ceilings);
   contribution_hundredths 30 15 (skills metrics_at_ceilings);
   contribution_hundredths 8 10 (achievements metrics_at_ceilings)]
  = [1800; 1250; 1000; 1000; 625].
Proof.
  split; [unfold valid_metrics, metrics_at_ceilings; simpl; lia|].
  split; vm_compute; reflexivity.
Qed.

(** C2. For every text each field of the metrics record lies within its
    range (internships up to 5, projects up to 8, certifications up to 10,
    skills up to 30, achievements up to 8), and the total score of every such
    record lies within [0, 100]. *)
Theorem metrics_and_total_within_bounds {U : Unicode} (text : str) :
  valid_metrics (resume_metrics text) /\
  (forall m, valid_metrics m ->
             exists s, calculate_resume_score m = Some s /\
                       0 <= total_score s <= 100).
Proof.
  split; [apply resume_metrics_valid|].
  intros m (H1 & H2 & H3 & H4 & H5).
  destruct (@score_exact_inv m) as (s & Hs & _ & _ & Hb).
  { apply score_exact; lia. }
  exists s. split; assumption.
Qed.

(** C7. The five weights sum to exactly 100, and the record with every field
    at its cap (5, 8, 10, 30, 8) has total score 100. *)
Theorem weights_sum_and_total_at_caps :
  for_internships weights + for_projects weights + for_certifications weights
  + for_skills weights + for_achievements weights = 100 /\
  option_map total_score (calculate_resume_score metrics_at_caps) = Some 100.
Proof. split; vm_compute; reflexivity. Qed.

(** ** The matcher against a declarative reading of the header pattern *)

Section MatcherFacts.
Context {U : Unicode}.

Lemma in_run_Seq (a b : regex) (st st' : mstate) :
  In st' (run (Seq a b) st) <->
  exists mid, In mid (run a st) /\ In st' (run b mid).
Proof. simpl. apply in_flat_map. Qed.

Lemma in_run_OneOf (cs : charset) (st st' : mstate) :
  In st' (run (OneOf cs) st) <->
  exists c, snd st = c :: snd st' /\ in_set cs c = true /\ fst st' = Some c.
Proof.
  destruct st as [p s], st' as [p' s']; simpl.
  destruct s as [|c s0].
  - split; [intros []|]. intros (c & H & _). discriminate.
  - destruct (in_set cs c) eqn:Hc; simpl.
    + split.
      * intros [H|[]]. injection H as <- <-. exists c. auto.
      * intros (c' & H & _ & ->). injection H as <- <-. auto.
    + split; [intros []|].
      intros (c' & H & Hin & _). injection H as <- <-. congruence.
Qed.

Lemma in_star_run (cs : charset) (s : str) :
  forall (p : option char) (st' : mstate),
    In st' (star_run cs p s) <->
    exists ws, s = ws ++ snd st' /\ forallb (in_set cs) ws = true /\
               fst st' = after p ws.
Proof.
  induction s as [|c s IH]; intros p [p' s']; simpl.
  - split.
    + intros [H|[]]. injection H as <- <-. exists []. auto.
    + intros (ws & H & _ & Hp).
      symmetry in H. apply app_eq_nil in H. destruct H as [-> ->].
      simpl in Hp. subst. auto.
  - destruct (in_set cs c) eqn:Hc.
    + rewrite in_app_iff, IH. simpl. split.
      * intros [(ws & H1 & H2 & H3)|[H|[]]].
        -- exists (c :: ws). simpl. rewrite Hc, H2. subst. auto.
        -- injection H as <- <-. exists []. auto.
      * intros (ws & H1 & H2 & H3).
        destruct ws as [|w ws]; simpl in *.
        -- right. left. subst. reflexivity.
        -- left. injection H1 as <- ->.
           apply andb_prop in H2. destruct H2 as [_ H2].
           exists ws. auto.
    + simpl. split.
      * intros [H|[]]. injection H as <- <-. exists []. auto.
      * intros (ws & H1 & H2 & H3).
        destruct ws as [|w ws]; simpl in *.
        -- left. subst. reflexivity.
        -- injection H1 as <- ->. rewrite Hc in H2. discriminate.
Qed.

Lemma in_run_Lit (h : str) :
  forall (st st' : mstate),
    In st' (run (Lit h) st) <->
    snd st = h ++ snd st' /\ fst st' = after (fst st) h.
Proof.
  induction h as [|c h IH]; intros [p s] [p' s'].
  - simpl. split.
    + intros [H|[]]. injection H as <- <-. auto.
    + intros [-> ->]. auto.
  - change (Lit (c :: h)) with (Seq (OneOf [CLit c]) (Lit h)).
    rewrite in_run_Seq. split.
    + intros (mid & H1 & H2).
      apply in_run_OneOf in H1. destruct H1 as (c' & Hs & Hc & Hp).
      apply IH in H2. destruct H2 as [H2 H3].
      simpl in Hc. rewrite orb_false_r in Hc. apply N.eqb_eq in Hc. subst c'.
      simpl in *. rewrite Hs, H2, H3, Hp. auto.
    + intros [Hs Hp]. simpl in Hs, Hp.
      exists (Some c, h ++ s'). split.
      * apply in_run_OneOf. exists c. simpl.
        rewrite N.eqb_refl. auto.
      * apply IH. simpl. auto.
Qed.

Lemma header_pattern_eq (h : str) :
  header_pattern h =
  Seq (Seq (OneOf [CLit 10%N]) (Star [CSpace]))
      (Seq (Lit h) (Seq (Star [CSpace]) (OneOf [CLit 58%N; CLit 10%N]))).
Proof.
  unfold header_pattern.
  replace (re "\n\s*") with (Seq (OneOf [CLit 10%N]) (Star [CSpace]))
    by (vm_compute; reflexivity).
  replace (re "\s*[:\n]") with (Seq (Star [CSpace]) (OneOf [CLit 58%N; CLit 10%N]))
    by (vm_compute; reflexivity).
  reflexivity.
Qed.

Lemma forallb_space_set (ws : str) :
  forallb (in_set [CSpace]) ws = forallb is_space ws.
Proof.
  induction ws as [|c ws IH]; simpl; [reflexivity|].
  rewrite orb_false_r, IH. reflexivity.
Qed.

(** The states the header pattern reaches: exactly the declarative shape. *)
Lemma in_run_header (h : str) (p : option char) (s : str) (st' : mstate) :
  In st' (run (header_pattern h) (p, s)) <->
  exists ws1 ws2 c,
    s = NL :: ws1 ++ h ++ ws2 ++ c :: snd st' /\
    forallb is_space ws1 = true /\ forallb is_space ws2 = true /\
    (c = chr ":" \/ c = NL) /\ fst st' = Some c.
Proof.
  rewrite header_pattern_eq. split.
  - intros H.
    apply in_run_Seq in H. destruct H as (m2 & H12 & H).
    apply in_run_Seq in H12. destruct H12 as (m1 & H1 & H2).
    apply in_run_OneOf in H1. destruct H1 as (c1 & Hs1 & Hc1 & _).
    change (run (Star [CSpace]) m1) with (star_run [CSpace] (fst m1) (snd m1)) in H2.
    apply in_star_run in H2. destruct H2 as (ws1 & Hs2 & Hw1 & _).
    apply in_run_Seq in H. destruct H as (m3 & H3 & H).
    apply in_run_Lit in H3. destruct H3 as [Hs3 _].
    apply in_run_Seq in H. destruct H as (m4 & H4 & H5).
    change (run (Star [CSpace]) m3) with (star_run [CSpace] (fst m3) (snd m3)) in H4.
    apply in_star_run in H4. destruct H4 as (ws2 & Hs4 & Hw2 & _).
    apply in_run_OneOf in H5. destruct H5 as (c & Hs5 & Hc & Hp).
    simpl in Hc1. rewrite orb_false_r in Hc1. apply N.eqb_eq in Hc1. subst c1.
    exists ws1, ws2, c. simpl in Hs1.
    rewrite Hs1, Hs2, Hs3, Hs4, Hs5.
    rewrite forallb_space_set in Hw1, Hw2.
    repeat split; try assumption.
    simpl in Hc. rewrite orb_false_r in Hc.
    apply orb_prop in Hc. destruct Hc as [Hc|Hc]; apply N.eqb_eq in Hc; auto.
  - intros (ws1 & ws2 & c & Hs & Hw1 & Hw2 & Hc & Hp).
    apply in_run_Seq.
    exists (after (Some NL) ws1, h ++ ws2 ++ c :: snd st'). split.
    + apply in_run_Seq. exists (Some NL, ws1 ++ h ++ ws2 ++ c :: snd st'). split.
      * apply in_run_OneOf. exists NL. simpl. rewrite Hs. auto.
      * change (run (Star [CSpace]) ?m) with (star_run [CSpace] (fst m) (snd m)).
        apply in_star_run. exists ws1. simpl.
        rewrite forallb_space_set. auto.
    + apply in_run_Seq.
      exists (after (after (Some NL) ws1) h, ws2 ++ c :: snd st'). split.
      * apply in_run_Lit. simpl. auto.
      * apply in_run_Seq.
        exists (after (after (after (Some NL) ws1) h) ws2, c :: snd st'). split.
        -- change (run (Star [CSpace]) ?m) with (star_run [CSpace] (fst m) (snd m)).
           apply in_star_run. exists ws2. simpl.
           rewrite forallb_space_set. auto.
        -- apply in_run_OneOf. exists c. simpl. repeat split; [|exact Hp].
           destruct Hc as [->| ->]; reflexivity.
Qed.

Lemma match_here_None (r : regex) (p : option char) (s : str) :
  match_here r p s = None <-> run r (p, s) = [].
Proof.
  unfold match_here. destruct (run r (p, s)) as [|[p' rest] l].
  - tauto.
  - split; discriminate.
Qed.

Lemma match_here_Some (r : regex) (p : option char) (s : str) (n : nat) :
  match_here r p s = Some n ->
  exists st', In st' (run r (p, s)) /\ n = (length s - length (snd st'))%nat.
Proof.
  unfold match_here. destruct (run r (p, s)) as [|[p' rest] l]; [discriminate|].
  intros H. injection H as <-. exists (p', rest). simpl. auto.
Qed.

(** [re.search] reports the leftmost position that has a match, and none when
    no position has one. *)
Lemma search_from_spec (r : regex) (s : str) :
  forall (p : option char) (pos : nat),
    match search_from r p pos s with
    | Some (i, e) =>
      exists k, i = (pos + k)%nat /\ (k <= length s)%nat /\
                match_here r (after p (firstn k s)) (skipn k s) = Some (e - i)%nat /\
                (i <= e)%nat /\
                forall j, (j < k)%nat ->
                          run r (after p (firstn j s), skipn j s) = []
    | None =>
      forall j, (j <= length s)%nat ->
                run r (after p (firstn j s), skipn j s) = []
    end.
Proof.
  induction s as [|c s IH]; intros p pos; simpl.
  - destruct (match_here r p []) as [n|] eqn:Hm.
    + exists 0%nat. simpl. rewrite Hm.
      repeat split; try lia. f_equal; lia.
    + intros j Hj. replace j with 0%nat by lia. simpl.
      apply match_here_None, Hm.
  - destruct (match_here r p (c :: s)) as [n|] eqn:Hm.
    + exists 0%nat. simpl. rewrite Hm.
      repeat split; try lia. f_equal; lia.
    + specialize (IH (Some c) (S pos)).
      destruct (search_from r (Some c) (S pos) s) as [[i e]|].
      * destruct IH as (k & Hi & Hk & Hmk & Hie & Hbefore).
        exists (S k). simpl. repeat split; try lia; try assumption.
        intros j Hj. destruct j as [|j]; simpl.
        -- apply match_here_None, Hm.
        -- apply Hbefore. lia.
      * intros j Hj. destruct j as [|j]; simpl.
        -- apply match_here_None, Hm.
        -- apply IH. lia.
Qed.

Lemma header_at_newline (h t : str) (i e : nat) :
  header_at h t i e -> nth_error t i = Some NL.
Proof.
  intros (pre & ws1 & ws2 & c & rest & Ht & Hi & _). subst.
  rewrite nth_error_app2 by lia. rewrite Nat.sub_diag. reflexivity.
Qed.

(** A heading at offset [i], read off the matcher's states there. *)
Lemma header_at_run (h t : str) (i e : nat) :
  header_at h t i e <->
  exists st', In st' (run (header_pattern h) (after None (firstn i t), skipn i t))
              /\ e = (length t - length (snd st'))%nat /\ (i < length t)%nat.
Proof.
  split.
  - intros (pre & ws1 & ws2 & c & rest & Ht & Hi & Hw1 & Hw2 & Hc & He).
    exists (Some c, rest).
    assert (Hskip : skipn i t = NL :: ws1 ++ h ++ ws2 ++ c :: rest).
    { subst t i. rewrite skipn_app, Nat.sub_diag, skipn_all. reflexivity. }
    rewrite Hskip. split.
    + apply in_run_header. exists ws1, ws2, c. simpl. auto.
    + cbn [snd]. subst t.
      repeat (rewrite length_app || cbn [length]). lia.
  - intros ([p' rest] & Hin & He & Hi). simpl in He.
    apply in_run_header in Hin.
    destruct Hin as (ws1 & ws2 & c & Hs & Hw1 & Hw2 & Hc & _). simpl in Hs.
    exists (firstn i t), ws1, ws2, c, rest.
    rewrite <- Hs, firstn_skipn.
    repeat split; try assumption.
    + rewrite length_firstn. lia.
    + pose proof (f_equal (@length char) (firstn_skipn i t)) as Hl.
      rewrite length_app, Hs, length_firstn in Hl.
      repeat (rewrite length_app in Hl || cbn [length] in Hl). lia.
Qed.
(** The matcher enumerates exactly the matches of the relation. *)
Lemma matches_run (r : regex) (st st' : mstate) :
  matches r st st' -> In st' (run r st).
Proof.
  induction 1 as [st|cs p c s Hc|st Hb|a b st mid st' _ IHa _ IHb
                  |a b st st' _ IH|a b st st' _ IH|cs st|cs p c s st' Hc _ IH];
    simpl.
  - auto.
  - rewrite Hc. simpl. auto.
  - rewrite Hb. simpl. auto.
  - apply in_flat_map. exists mid. auto.
  - apply in_or_app. auto.
  - apply in_or_app. auto.
  - destruct st as [p [|c s]]; simpl; auto.
    destruct (in_set cs c); simpl; auto.
    apply in_or_app. right. simpl. auto.
  - rewrite Hc. apply in_or_app. left. exact IH.
Qed.



Lemma matches_here (r : regex) (p : option char) (s : str) (st' : mstate) :
  matches r (p, s) st' -> match_here r p s <> None.
Proof.
  intros H. apply matches_run in H. unfold match_here.
  destruct (run r (p, s)) as [|[q rest] l]; [contradiction|discriminate].
Qed.

(** A match somewhere at or after the position where the scan resumes makes
    the count positive. *)
Lemma count_from_positive (r : regex) (s : str) :
  forall (p : option char) (skip k : nat),
    (skip <= k <= length s)%nat ->
    match_here r (after p (firstn k s)) (skipn k s) <> None ->
    (1 <= count_from r p skip s)%nat.
Proof.
  induction s as [|c s IH]; intros p skip k Hk Hm.
  - simpl in Hk. assert (k = 0)%nat by lia. subst k.
    assert (skip = 0)%nat by lia. subst skip. simpl in *.
    destruct (match_here r p []); [lia|contradiction].
  - destruct skip as [|skip]; simpl.
    + destruct (match_here r p (c :: s)) eqn:Hhere; [lia|].
      destruct k as [|k]; [simpl in Hm; contradiction|].
      apply (IH (Some c) 0%nat k); [simpl in Hk; lia|exact Hm].
    + destruct k as [|k]; [lia|].
      apply (IH (Some c) skip k); [simpl in Hk; lia|exact Hm].
Qed.

Ltac one_char := eapply M_Seq; [apply M_OneOf; reflexivity|].

(** The fallback pattern of the certifications counter matches a
    word-delimited "aws certified". *)
Lemma aws_certified_matches (p : option char) (post : str) :
  word_before (p, post) = false ->
  word_after (p, post) = false ->
  match_here (re "\b(coursera|udemy|nptel|aws\s+certified|google\s+certified)\b")
             p (u "aws certified" ++ post) <> None.
Proof.
  intros Hb Ha.
  let x := eval vm_compute in
      (re "\b(coursera|udemy|nptel|aws\s+certified|google\s+certified)\b") in
  change (re "\b(coursera|udemy|nptel|aws\s+certified|google\s+certified)\b")
    with x.
  let x := eval vm_compute in (u "aws certified") in
  change (u "aws certified") with x.
  cbn [app].
  apply matches_here with (st' := (Some (chr "d"), post)).
  eapply M_Seq.
  { apply M_WordB.
    change (word_before (p, ?s)) with (word_before (p, post)).
    rewrite Hb. reflexivity. }
  eapply M_Seq.
  { apply M_AltR, M_AltR, M_AltR, M_AltL.
    do 3 one_char.
    eapply M_Seq.
    { eapply M_Seq; [apply M_OneOf; reflexivity|apply M_Star_stop]. }
    do 8 one_char. apply M_OneOf. reflexivity. }
  apply M_WordB.
  change (word_after (?q, post)) with (word_after (p, post)).
  rewrite Ha. reflexivity.
Qed.

Lemma certification_fallback_positive (tl pre post : str) :
  tl = pre ++ u "aws certified" ++ post ->
  word_delimited pre post ->
  1 <= certification_fallback tl.
Proof.
  intros Htl [Hb Ha]. unfold certification_fallback, re_count.
  apply (Nat2Z.inj_le 1).
  apply count_from_positive with (k := length pre).
  - subst tl. rewrite length_app. lia.
  - subst tl. rewrite firstn_app, Nat.sub_diag, firstn_all, app_nil_r.
    rewrite skipn_app, Nat.sub_diag, skipn_all. simpl.
    apply aws_certified_matches; assumption.
Qed.
End MatcherFacts.

(** ** The section locator *)

Section Locator.
Context {U : Unicode}.

Lemma search_header_Some (h t : str) (i e : nat) :
  re_search (header_pattern h) t = Some (i, e) ->
  header_at h t i e /\
  forall j e', (j < i)%nat -> ~ header_at h t j e'.
Proof.
  unfold re_search. intros Hs.
  pose proof (search_from_spec (header_pattern h) t None 0) as Hspec.
  rewrite Hs in Hspec.
  destruct Hspec as (k & Hi & Hk & Hm & Hie & Hbefore).
  simpl in Hi. subst k. split.
  - apply match_here_Some in Hm. destruct Hm as (st' & Hin & Hn).
    apply header_at_run. exists st'. split; [exact Hin|].
    apply in_run_header in Hin.
    destruct Hin as (ws1 & ws2 & c & Hskip & _).
    pose proof (f_equal (@length char) Hskip) as Hl.
    rewrite length_skipn in Hl, Hn.
    repeat (rewrite length_app in Hl || cbn [length] in Hl). lia.
  - intros j e' Hj Hat. apply header_at_run in Hat.
    destruct Hat as (st' & Hin & _).
    rewrite (Hbefore j Hj) in Hin. exact Hin.
Qed.

Lemma search_header_None (h t : str) :
  re_search (header_pattern h) t = None <->
  forall i e, ~ header_at h t i e.
Proof.
  unfold re_search. split.
  - intros Hs i e Hat.
    pose proof (search_from_spec (header_pattern h) t None 0) as Hspec.
    rewrite Hs in Hspec.
    apply header_at_run in Hat. destruct Hat as (st' & Hin & _ & Hi).
    rewrite (Hspec i) in Hin by lia. exact Hin.
  - intros Hnone.
    destruct (search_from (header_pattern h) None 0 t) as [[i e]|] eqn:Hs;
      [|reflexivity].
    exfalso. apply (Hnone i e).
    apply search_header_Some. exact Hs.
Qed.

Lemma find_section_lower_not_found (tl : str) (hs : list str) :
  find_section_lower tl hs = (-1, -1) <->
  forall h, In h hs -> forall i e, ~ header_at h tl i e.
Proof.
  induction hs as [|h hs IH]; simpl.
  - split; [intros _ h []|reflexivity].
  - destruct (re_search (header_pattern h) tl) as [[i e]|] eqn:Hs.
    + split.
      * intros H. exfalso.
        destruct (re_search next_section_pattern (skipn e tl)) as [[n _]|];
          injection H as H _; lia.
      * intros Hnone. exfalso.
        apply (Hnone h (or_introl eq_refl) i e).
        apply search_header_Some. exact Hs.
    + rewrite IH. split.
      * intros Hnone h' [<-|Hin]; [|apply Hnone, Hin].
        apply search_header_None. exact Hs.
      * intros Hnone h' Hin. apply Hnone. right. exact Hin.
Qed.

Lemma find_section_lower_found (tl : str) (hs : list str) (start end_ : Z) :
  find_section_lower tl hs = (start, end_) ->
  start <> -1 ->
  exists k h i,
    nth_error hs k = Some h /\
    header_at h tl i (Z.to_nat start) /\
    0 <= start /\
    (forall j e, (j < i)%nat -> ~ header_at h tl j e) /\
    (forall k' h', (k' < k)%nat -> nth_error hs k' = Some h' ->
                   forall j e, ~ header_at h' tl j e).
Proof.
  induction hs as [|h hs IH]; simpl; intros Hfs Hstart.
  - injection Hfs as <- _. contradiction.
  - destruct (re_search (header_pattern h) tl) as [[i e]|] eqn:Hs.
    + assert (Hst : start = Z.of_nat e).
      { destruct (re_search next_section_pattern (skipn e tl)) as [[n _]|];
          injection Hfs as <- _; reflexivity. }
      apply search_header_Some in Hs. destruct Hs as [Hat Hfirst].
      exists 0%nat, h, i. rewrite Hst, Nat2Z.id.
      repeat split; try assumption; try lia.
    + destruct (IH Hfs Hstart) as (k & h0 & i & Hnth & Hat & H0 & Hfirst & Hprev).
      exists (S k), h0, i. repeat split; try assumption.
      intros k' h' Hk Hnth'. destruct k' as [|k']; simpl in Hnth'.
      * injection Hnth' as <-. apply search_header_None. exact Hs.
      * apply (Hprev k' h'); [lia|exact Hnth'].
Qed.
End Locator.

(** C3, as the code has it.  When a section is found, it is the section of
    the first candidate of the caller's list that stands as a heading
    anywhere in the lower-cased text, taken at that candidate's first
    occurrence in document order: no candidate listed before it stands as a
    heading anywhere, and it does not stand as a heading at an earlier
    offset.  The size of the section plays no part. *)
Theorem first_listed_candidate_wins {U : Unicode}
        (text : str) (headers : list string) (start end_ : Z) :
  find_section text headers = (start, end_) ->
  start <> -1 ->
  exists k h i,
    nth_error headers k = Some h /\
    header_at (u h) (str_lower text) i (Z.to_nat start) /\
    0 <= start /\
    (forall j e, (j < i)%nat -> ~ header_at (u h) (str_lower text) j e) /\
    (forall k' h', (k' < k)%nat -> nth_error headers k' = Some h' ->
                   forall j e, ~ header_at (u h') (str_lower text) j e).
Proof.
  unfold find_section. intros Hfs Hstart.
  destruct (find_section_lower_found _ _ Hfs Hstart)
    as (k & h0 & i & Hnth & Hat & H0 & Hfirst & Hprev).
  rewrite nth_error_map in Hnth.
  destruct (nth_error headers k) as [h|] eqn:Hk; [|discriminate].
  injection Hnth as <-.
  exists k, h, i. repeat split; try assumption.
  intros k' h' Hlt Hk'. apply (Hprev k' (u h') Hlt).
  rewrite nth_error_map, Hk'. reflexivity.
Qed.

(** C10. The locator reports "not found" exactly when no candidate phrase
    stands after a newline as a heading; a found section always starts after
    such a heading, whose newline lies at some offset [i], so the phrase
    itself never sits at offset 0.  A heading on the very first line is
    therefore not recognised: a text made of "Projects:" and one more line
    has no projects section, and repeating the heading on a later line makes
    the locator find that later one. *)
Theorem heading_needs_newline_before {U : Unicode}
        (text : str) (headers : list string) :
  (find_section text headers = (-1, -1) <->
   forall h, In h headers ->
             forall i e, ~ header_at (u h) (str_lower text) i e) /\
  (forall start end_,
      find_section text headers = (start, end_) -> start <> -1 ->
      exists h i, In h headers /\
                  header_at (u h) (str_lower text) i (Z.to_nat start) /\
                  nth_error (str_lower text) i = Some NL).
Proof.
  split.
  - unfold find_section. rewrite find_section_lower_not_found. split.
    + intros H h Hin. apply H. apply in_map. exact Hin.
    + intros H h Hin. apply in_map_iff in Hin.
      destruct Hin as (h0 & <- & Hin). apply H. exact Hin.
  - unfold find_section. intros start end_ Hfs Hstart.
    destruct (find_section_lower_found _ _ Hfs Hstart)
      as (k & h0 & i & Hnth & Hat & _).
    apply nth_error_In, in_map_iff in Hnth.
    destruct Hnth as (h & <- & Hin).
    exists h, i. split; [exact Hin|].
    split; [exact Hat|]. apply (header_at_newline Hat).
Qed.

(** ** Falling back to the whole document *)

(** X15. The counters that do fall back.  For the median-reconciled counters
    (internships and projects), when the section is found and every signal is
    zero, the result is the count of the global fallback pattern over the
    whole lower-cased document, clamped to the counter's range.  For
    achievements, when the section's signal is zero and the leadership signal
    adds nothing, the result is the count of the certification-brand pattern
    over the whole document, capped at 8. *)
Theorem zero_signals_fall_back {U : Unicode} (text : str) :
  (forall start end_,
      find_section text exp_headers = (start, end_) -> start <> -1 ->
      Forall (fun i => i = 0)
             (internship_indicators text (str_lower text) start end_) ->
      count_internships text
      = Z.min (Z.max (internship_fallback (str_lower text)) 0) 5) /\
  (forall start end_,
      find_section text project_headers = (start, end_) -> start <> -1 ->
      Forall (fun i => i = 0)
             (project_indicators text (str_lower text) start end_) ->
      count_projects text
      = Z.min (Z.max (project_fallback (str_lower text)) 0) 8) /\
  (forall s1 e1 s2 e2,
      find_section text achievement_headers = (s1, e1) -> s1 <> -1 ->
      achievement_section_signal (str_lower text) s1 e1 = 0 ->
      find_section text extra_headers = (s2, e2) ->
      (s2 = -1 \/ leadership_signal (str_lower text) s2 e2 = 0) ->
      count_achievements text
      = Z.min (achievement_fallback (str_lower text)) 8).
Proof.
  assert (Hzero : forall l, Forall (fun i => i = 0) l -> median_of_valid l = None).
  { intros l Hl. unfold median_of_valid, valid_indicators.
    replace (filter (fun i => 0 <? i) l) with (@nil Z); [reflexivity|].
    induction Hl as [|x l Hx _ IH]; simpl; [reflexivity|].
    subst x. simpl. exact IH. }
  split; [|split].
  - intros start end_ Hfs Hstart Hall. unfold count_internships.
    rewrite Hfs. apply Z.eqb_neq in Hstart. rewrite Hstart.
    rewrite (Hzero _ Hall). reflexivity.
  - intros start end_ Hfs Hstart Hall. unfold count_projects.
    rewrite Hfs. apply Z.eqb_neq in Hstart. rewrite Hstart.
    rewrite (Hzero _ Hall). reflexivity.
  - intros s1 e1 s2 e2 Hfs1 Hs1 Hsig Hfs2 Hlead. unfold count_achievements.
    rewrite Hfs1, Hfs2. apply Z.eqb_neq in Hs1. rewrite Hs1, Hsig.
    assert (Hfb : 0 <= achievement_fallback (str_lower text))
      by apply re_count_nonneg.
    destruct Hlead as [-> | ->]; [|destruct (s2 =? -1)];
      cbv beta iota zeta; rewrite ?Z.eqb_refl; cbv iota;
      change (Z.max 0 0) with 0; rewrite ?Z.eqb_refl; cbv iota; lia.
Qed.

(** C9, as the code has it.  For every text in which no certifications
    header is located, the certifications counter returns the number of
    matches of the global fallback pattern in the lower-cased text, capped at
    10.  That is exactly 1 when the pattern matches exactly once, and at
    least 1, not zero, whenever "AWS Certified" (in any case) stands
    delimited as a word. *)
Theorem certifications_fallback_count {U : Unicode} (text : str) :
  find_section text cert_headers = (-1, -1) ->
  count_certifications text
  = Z.min (certification_fallback (str_lower text)) 10 /\
  (certification_fallback (str_lower text) = 1 ->
   count_certifications text = 1) /\
  (forall pre post,
      str_lower text = pre ++ u "aws certified" ++ post ->
      word_delimited pre post ->
      1 <= count_certifications text <= 10).
Proof.
  intros Hfs.
  assert (Hfb : 0 <= certification_fallback (str_lower text))
    by apply re_count_nonneg.
  assert (Heq : count_certifications text
                = Z.min (certification_fallback (str_lower text)) 10).
  { unfold count_certifications. rewrite Hfs. cbv beta iota zeta.
    change (-1 =? -1) with true. cbv iota. lia. }
  split; [exact Heq|]. split.
  - intros H1. rewrite Heq, H1. reflexivity.
  - intros pre post Htl Hwd.
    pose proof (certification_fallback_positive Htl Hwd). lia.
Qed.

(** ** The metrics assembler *)

(** C8. Whatever the extraction and the counters do, [parse_resume] returns
    either nothing or a record holding the five values the counters returned
    on the extracted text; when any counter raises, it returns nothing: the
    exception is turned into the single failure value, and no record with
    some of the fields comes out. *)
Theorem parse_resume_all_or_nothing
        (E : Type) (value_error : E)
        (extract_resume_text : string -> outcome E str)
        (c_i c_p c_c c_s c_a : str -> outcome E Z) (file_path : string) :
  let result :=
    parse_resume_with value_error extract_resume_text c_i c_p c_c c_s c_a
                      file_path in
  (result = None \/
   exists text i p c s a,
     extract_resume_text file_path = Returns text /\
     is_blank text = false /\
     c_i text = Returns i /\ c_p text = Returns p /\ c_c text = Returns c /\
     c_s text = Returns s /\ c_a text = Returns a /\
     result = Some {| internships := i; projects := p; certifications := c;
                      skills := s; achievements := a |}) /\
  (forall text e,
      extract_resume_text file_path = Returns text ->
      c_i text = Raises e \/ c_p text = Raises e \/ c_c text = Raises e \/
      c_s text = Raises e \/ c_a text = Raises e ->
      result = None).
Proof.
  cbv zeta. unfold parse_resume_with, parse_body, bind. split.
  - destruct (extract_resume_text file_path) as [text|e]; [|left; reflexivity].
    destruct (is_blank text) eqn:Hb; [left; reflexivity|].
    destruct (c_i text) as [i|e] eqn:Hi; [|left; reflexivity].
    destruct (c_p text) as [p|e] eqn:Hp; [|left; reflexivity].
    destruct (c_c text) as [c|e] eqn:Hc; [|left; reflexivity].
    destruct (c_s text) as [s|e] eqn:Hs; [|left; reflexivity].
    destruct (c_a text) as [a|e] eqn:Ha; [|left; reflexivity].
    right. exists text, i, p, c, s, a. repeat split; assumption.
  - intros text e Hx Hraise. rewrite Hx.
    destruct (is_blank text); [reflexivity|].
    destruct (c_i text) as [i|e1]; [|reflexivity].
    destruct (c_p text) as [p|e2]; [|reflexivity].
    destruct (c_c text) as [c|e3]; [|reflexivity].
    destruct (c_s text) as [s|e4]; [|reflexivity].
    destruct (c_a text) as [a|e5]; [|reflexivity].
    destruct Hraise as [H|[H|[H|[H|H]]]]; discriminate.
Qed.

(** With the counters of the source, which do not raise, a text that is not
    blank always yields the full record. *)
Lemma parse_resume_complete {U : Unicode}
      (E : Type) (value_error : E)
      (extract_resume_text : string -> outcome E str)
      (file_path : string) (text : str) :
  extract_resume_text file_path = Returns text ->
  is_blank text = false ->
  parse_resume value_error extract_resume_text file_path
  = Some (resume_metrics text).
Proof.
  intros Hx Hb. unfold parse_resume, parse_resume_with, parse_body, bind.
  rewrite Hx, Hb. reflexivity.
Qed.

(* ------------------------------------------------------------------ *)
(** * The rest of the pipeline *)

(** ** The rating of [core/scorer.py] *)

Lemma float_mem_In (x : float) (l : list float) :
  float_mem x l = true -> In x l.
Proof.
  unfold float_mem. intros H. apply existsb_exists in H.
  destruct H as (y & Hin & Heq).
  apply FloatAxioms.Leibniz.eqb_spec in Heq. subst. exact Hin.
Qed.

(** Every sum of the first two terms is in the list of its exact value. *)
Lemma pair_sums_complete (l g : Z) :
  0 <= l <= 100 -> 0 <= g <= 100 ->
  In (weighted_pair l g) (pair_sums (4 * l + 3 * g)).
Proof.
  intros Hl Hg. unfold pair_sums.
  assert (Hin : In l (upto 100)) by (apply in_upto; simpl; lia).
  induction (upto 100) as [|x xs IH]; [destruct Hin|].
  cbn [fold_right].
  set (sums := fold_right _ [] xs) in *.
  destruct Hin as [->|Hin].
  - replace (4 * l + 3 * g - 4 * l) with (g * 3) by lia.
    rewrite Z.mod_mul, Z.div_mul by lia.
    replace ((0 <=? g * 3) && (g * 3 <=? 300) && (0 =? 0)) with true
      by (symmetry; rewrite !andb_true_iff, !Z.leb_le; repeat split; lia).
    cbv zeta.
    destruct (float_mem (weighted_pair l g) sums) eqn:Hm.
    + apply float_mem_In, Hm.
    + left. reflexivity.
  - specialize (IH Hin). cbv zeta.
    destruct (_ && _); [|exact IH].
    destruct (float_mem _ sums); [exact IH|right; exact IH].
Qed.

Lemma compute_elo_of_pair (l g r : Z) :
  compute_elo {| leetcode_score := l; github_score := g; resume_score := r |}
  = elo_of_pair (weighted_pair l g) r.
Proof.
  unfold compute_elo, elo_of_pair, weighted_pair.
  cbn [leetcode_score github_score resume_score]. reflexivity.
Qed.

Lemma all_pair_sums_spec (f : Z -> float -> Z -> bool) :
  all_pair_sums f = true ->
  forall l g r,
    0 <= l <= 100 -> 0 <= g <= 100 -> 0 <= r <= 100 ->
    f (4 * l + 3 * g) (weighted_pair l g) r = true.
Proof.
  unfold all_pair_sums. intros H l g r Hl Hg Hr.
  assert (Hk : In (4 * l + 3 * g) (upto 700))
    by (apply in_upto; change (Z.of_nat 700) with 700; lia).
  assert (Hr' : In r (upto 100))
    by (apply in_upto; change (Z.of_nat 100) with 100; lia).
  rewrite forallb_forall in H. specialize (H _ Hk).
  rewrite forallb_forall in H. specialize (H _ (pair_sums_complete Hl Hg)).
  rewrite forallb_forall in H. exact (H r Hr').
Qed.

Lemma elo_close_computed : all_pair_sums elo_close_at = true.
Proof. vm_compute. reflexivity. Qed.

(** On scores within [0, 100] the float computation returns the exact rating
    rounded down or one less, at least 1000, in the tier of the exact
    rating. *)
Lemma elo_close (ps : PlatformScores) :
  scores_in_range ps ->
  exists e,
    compute_elo ps = Some e /\
    (e = exact_elo_floor ps \/ e = exact_elo_floor ps - 1) /\
    1000 <= e /\
    tier (get_rating_tier e) = tier (get_rating_tier (exact_elo_floor ps)).
Proof.
  destruct ps as [l g r]. unfold scores_in_range; simpl.
  intros (Hl & Hg & Hr).
  pose proof (@all_pair_sums_spec _ elo_close_computed l g r Hl Hg Hr) as H.
  unfold elo_close_at in H.
  rewrite <- compute_elo_of_pair in H.
  replace (3 * (4 * l + 3 * g + 3 * r)) with (12 * l + 9 * g + 9 * r) in H
    by lia.
  unfold exact_elo_floor. cbn [leetcode_score github_score resume_score].
  replace (2000 + 12 * l + 9 * g + 9 * r)
    with (2000 + (12 * l + 9 * g + 9 * r)) by lia.
  destruct (compute_elo _) as [e|]; [|discriminate].
  apply andb_prop in H. destruct H as [H Ht].
  apply andb_prop in H. destruct H as [H H1000].
  exists e. split; [reflexivity|]. split.
  - apply orb_prop in H. destruct H as [H|H]; apply Z.eqb_eq in H; auto.
  - split; [apply Z.leb_le, H1000|]. apply String.eqb_eq, Ht.
Qed.

(** X1. For platform scores within [0, 100], [compute_elo] returns a rating
    within [1000, 2500], the scale its docstring announces. *)
Theorem compute_elo_in_scale (ps : PlatformScores) :
  scores_in_range ps ->
  exists e, compute_elo ps = Some e /\ 1000 <= e <= 2500.
Proof.
  intros Hr. destruct (elo_close Hr) as (e & He & Hclose & H1000 & _).
  exists e. split; [exact He|]. split; [exact H1000|].
  destruct Hr as (Hl & Hg & Hs). unfold exact_elo_floor in Hclose.
  Z.div_mod_to_equations. lia.
Qed.

(** X2. The rating computed in floats is never above the rating of exact
    arithmetic, [1000 + 6 l + 4.5 g + 4.5 r] rounded down, and at most one
    point below it. *)
Theorem compute_elo_at_most_one_below_exact (ps : PlatformScores) :
  scores_in_range ps ->
  exists e,
    compute_elo ps = Some e /\
    exact_elo_floor ps - 1 <= e <= exact_elo_floor ps.
Proof.
  intros Hr. destruct (elo_close Hr) as (e & He & Hclose & _).
  exists e. split; [exact He|]. lia.
Qed.

(** X3. Raising a platform score without lowering another raises the rating:
    [compute_elo] is strictly monotone on scores within [0, 100]. *)
Theorem compute_elo_strictly_monotone (ps ps' : PlatformScores) :
  scores_in_range ps -> scores_in_range ps' ->
  leetcode_score ps <= leetcode_score ps' ->
  github_score ps <= github_score ps' ->
  resume_score ps <= resume_score ps' ->
  ps <> ps' ->
  exists e e',
    compute_elo ps = Some e /\ compute_elo ps' = Some e' /\ e < e'.
Proof.
  intros Hr Hr' Hl Hg Hs Hne.
  destruct (elo_close Hr) as (e & He & Hclose & _).
  destruct (elo_close Hr') as (e' & He' & Hclose' & _).
  exists e, e'. split; [exact He|]. split; [exact He'|].
  assert (Hstrict : leetcode_score ps < leetcode_score ps'
                    \/ github_score ps < github_score ps'
                    \/ resume_score ps < resume_score ps').
  { destruct ps as [l g r], ps' as [l' g' r']; simpl in *.
    destruct (Z.eq_dec l l'), (Z.eq_dec g g'), (Z.eq_dec r r');
      try lia.
    subst. contradiction. }
  unfold exact_elo_floor in *.
  Z.div_mod_to_equations. lia.
Qed.

(** X4. The point the float computation may lose never changes the tier:
    [get_rating_tier] of the computed rating is the tier of the exact
    rating. *)
Theorem float_error_keeps_tier (ps : PlatformScores) :
  scores_in_range ps ->
  exists e,
    compute_elo ps = Some e /\
    tier (get_rating_tier e) = tier (get_rating_tier (exact_elo_floor ps)).
Proof.
  intros Hr. destruct (elo_close Hr) as (e & He & _ & _ & Ht).
  exists e. split; assumption.
Qed.

(** X5. The tiers of [get_rating_tier] are bands of 200 points from 1300 to
    2300, Bronze below and Grandmaster above, so a higher rating never gets
    a lower tier. *)
Theorem rating_tiers_are_bands (elo : Z) :
  tier (get_rating_tier elo) = nth (rating_band elo) rating_tiers ""%string /\
  (forall elo', elo <= elo' -> (rating_band elo <= rating_band elo')%nat).
Proof.
  split.
  - unfold get_rating_tier, rating_band.
    repeat match goal with
           | |- context [?a <=? elo] => destruct (Z.leb_spec a elo)
           end; simpl tier;
      match goal with
      | |- ?name = _ =>
        let k := match name with
                 | "Grandmaster"%string => constr:(6)
                 | "Master"%string => constr:(5)
                 | "Diamond"%string => constr:(4)
                 | "Platinum"%string => constr:(3)
                 | "Gold"%string => constr:(2)
                 | "Silver"%string => constr:(1)
                 | "Bronze"%string => constr:(0)
                 end in
        replace (Z.min 6 (Z.max 0 ((elo - 1100) / 200))) with k
          by (Z.div_mod_to_equations; lia)
      end; reflexivity.
  - intros elo' Hle. unfold rating_band.
    apply Z2Nat.inj_le; [lia|lia|].
    assert ((elo - 1100) / 200 <= (elo' - 1100) / 200)
      by (apply Z.div_le_mono; lia).
    lia.
Qed.


(** ** The resume score as a function of the counts *)

Lemma round_half_even_mono (p p' q : Z) :
  0 < q -> p <= p' -> round_half_even p q <= round_half_even p' q.
Proof.
  intros Hq Hp. unfold round_half_even.
  assert (Hf : p / q <= p' / q) by (apply Z.div_le_mono; lia).
  pose proof (Z.div_mod p q ltac:(lia)) as Hd.
  pose proof (Z.div_mod p' q ltac:(lia)) as Hd'.
  pose proof (Z.mod_pos_bound p q Hq) as Hm.
  pose proof (Z.mod_pos_bound p' q Hq) as Hm'.
  destruct (Z.eq_dec (p / q) (p' / q)) as [Heq|Hne].
  - rewrite <- Heq in *.
    destruct (Z.ltb_spec (2 * (p mod q)) q), (Z.ltb_spec (2 * (p' mod q)) q),
             (Z.ltb_spec q (2 * (p mod q))), (Z.ltb_spec q (2 * (p' mod q))),
             (Z.even (p / q)); lia.
  - destruct (Z.ltb_spec (2 * (p mod q)) q), (Z.ltb_spec (2 * (p' mod q)) q),
             (Z.ltb_spec q (2 * (p mod q))), (Z.ltb_spec q (2 * (p' mod q))),
             (Z.even (p / q)), (Z.even (p' / q)); lia.
Qed.

Lemma contribution_mono (c w v v' : Z) :
  0 < c -> 0 <= w -> Z.min v c <= Z.min v' c ->
  contribution_hundredths c w v <= contribution_hundredths c w v'.
Proof.
  intros Hc Hw Hv. unfold contribution_hundredths.
  apply round_half_even_mono; [exact Hc|]. nia.
Qed.

Lemma exact_total_mono (m m' : Metrics) :
  capped_le m m' ->
  round_half_even (sum_ints (exact_contributions m)) 100
  <= round_half_even (sum_ints (exact_contributions m')) 100.
Proof.
  intros (H1 & H2 & H3 & H4 & H5).
  apply round_half_even_mono; [lia|].
  unfold exact_contributions, sum_ints. simpl.
  pose proof (@contribution_mono 3 30 _ _ ltac:(lia) ltac:(lia) H1).
  pose proof (@contribution_mono 4 25 _ _ ltac:(lia) ltac:(lia) H2).
  pose proof (@contribution_mono 5 20 _ _ ltac:(lia) ltac:(lia) H3).
  pose proof (@contribution_mono 20 15 _ _ ltac:(lia) ltac:(lia) H4).
  pose proof (@contribution_mono 5 10 _ _ ltac:(lia) ltac:(lia) H5).
  lia.
Qed.

Lemma total_of_exact (m : Metrics) :
  nonneg_metrics m ->
  total_of m = Some (round_half_even (sum_ints (exact_contributions m)) 100).
Proof.
  intros (H1 & H2 & H3 & H4 & H5).
  destruct (@score_exact_inv m) as (s & Hs & _ & Ht & _).
  { apply score_exact; assumption. }
  unfold total_of. rewrite Hs. simpl. rewrite Ht. reflexivity.
Qed.

(** X6. The total score never goes down when counts go up, and it only sees
    the counts up to the ceilings 3, 4, 5, 20 and 5: if each capped count of
    [m'] is at least that of [m], the total of [m'] is at least that of [m];
    records with the same capped counts have the same total. *)
Theorem resume_total_monotone_and_saturating (m m' : Metrics) :
  nonneg_metrics m -> nonneg_metrics m' ->
  capped_le m m' ->
  exists t t',
    total_of m = Some t /\ total_of m' = Some t' /\ t <= t' /\
    (capped_le m' m -> t = t').
Proof.
  intros Hm Hm' Hle.
  exists (round_half_even (sum_ints (exact_contributions m)) 100),
         (round_half_even (sum_ints (exact_contributions m')) 100).
  split; [apply total_of_exact, Hm|].
  split; [apply total_of_exact, Hm'|].
  split; [apply exact_total_mono, Hle|].
  intros Hge. apply Z.le_antisymm; apply exact_total_mono; assumption.
Qed.

Lemma resume_tier_rank_mono (t t' : Z) :
  t <= t' -> (resume_tier_rank t <= resume_tier_rank t')%nat.
Proof.
  intros Hle. unfold resume_tier_rank. simpl.
  repeat match goal with
         | |- context [?a <=? ?x] => destruct (Z.leb_spec a x)
         end; simpl; lia.
Qed.

(** X7. The tier [display_breakdown] prints is the one of the thresholds
    40, 55, 70, 80 and 90 the total reaches, and counts that go up never
    lower it. *)
Theorem resume_tier_monotone (m m' : Metrics) :
  nonneg_metrics m -> nonneg_metrics m' ->
  capped_le m m' ->
  exists t t',
    total_of m = Some t /\ total_of m' = Some t' /\
    fst (breakdown_tier t) = nth (resume_tier_rank t) resume_tiers ""%string /\
    fst (breakdown_tier t') = nth (resume_tier_rank t') resume_tiers ""%string /\
    (resume_tier_rank t <= resume_tier_rank t')%nat.
Proof.
  intros Hm Hm' Hle.
  exists (round_half_even (sum_ints (exact_contributions m)) 100),
         (round_half_even (sum_ints (exact_contributions m')) 100).
  split; [apply total_of_exact, Hm|].
  split; [apply total_of_exact, Hm'|].
  assert (Hlabel : forall t, fst (breakdown_tier t)
                             = nth (resume_tier_rank t) resume_tiers ""%string).
  { intros t. unfold breakdown_tier, resume_tier_rank. simpl.
    repeat match goal with
           | |- context [?a <=? t] => destruct (Z.leb_spec a t)
           end; try reflexivity; lia. }
  split; [apply Hlabel|]. split; [apply Hlabel|].
  apply resume_tier_rank_mono, exact_total_mono, Hle.
Qed.

(** X8. What the recommendations say about the score: a record that gets no
    recommendation to improve (at least 2 internships, 3 projects,
    3 certifications, 15 skills and 2 achievements) has a total of at least
    66, and a record of tier S (total 90 or more) is never told to gain
    internships, build projects or earn certifications. *)
Theorem recommendations_and_total (m : Metrics) :
  nonneg_metrics m ->
  exists t,
    total_of m = Some t /\
    (breakdown_recommendations m t
     = printed_if (80 <=? t)
                  "  ✓ Excellent profile! Focus on depth and advanced skills."
     -> 66 <= t) /\
    (90 <= t ->
     2 <= internships m /\ 3 <= projects m /\ 3 <= certifications m).
Proof.
  intros Hm.
  exists (round_half_even (sum_ints (exact_contributions m)) 100).
  split; [apply total_of_exact, Hm|].
  destruct Hm as (H1 & H2 & H3 & H4 & H5).
  pose proof (@contribution_bounds 3 30 (internships m) ltac:(lia) ltac:(lia) H1) as B1.
  pose proof (@contribution_bounds 4 25 (projects m) ltac:(lia) ltac:(lia) H2) as B2.
  pose proof (@contribution_bounds 5 20 (certifications m) ltac:(lia) ltac:(lia) H3) as B3.
  pose proof (@contribution_bounds 20 15 (skills m) ltac:(lia) ltac:(lia) H4) as B4.
  pose proof (@contribution_bounds 5 10 (achievements m) ltac:(lia) ltac:(lia) H5) as B5.
  split.
  - intros Hrec.
    assert (Hall : (internships m <? 2) = false /\ (projects m <? 3) = false /\
                   (certifications m <? 3) = false /\ (skills m <? 15) = false /\
                   (achievements m <? 2) = false).
    { unfold breakdown_recommendations, printed_if in Hrec.
      destruct (internships m <? 2), (projects m <? 3),
               (certifications m <? 3), (skills m <? 15),
               (achievements m <? 2),
               (80 <=? round_half_even (sum_ints (exact_contributions m)) 100);
        simpl in Hrec; try discriminate; auto. }
    destruct Hall as (A1 & A2 & A3 & A4 & A5).
    apply Z.ltb_ge in A1, A2, A3, A4, A5.
    pose proof (@contribution_mono 3 30 2 (internships m) ltac:(lia) ltac:(lia) ltac:(lia)) as C1.
    pose proof (@contribution_mono 4 25 3 (projects m) ltac:(lia) ltac:(lia) ltac:(lia)) as C2.
    pose proof (@contribution_mono 5 20 3 (certifications m) ltac:(lia) ltac:(lia) ltac:(lia)) as C3.
    pose proof (@contribution_mono 20 15 15 (skills m) ltac:(lia) ltac:(lia) ltac:(lia)) as C4.
    pose proof (@contribution_mono 5 10 2 (achievements m) ltac:(lia) ltac:(lia) ltac:(lia)) as C5.
    change (contribution_hundredths 3 30 2) with 2000 in C1.
    change (contribution_hundredths 4 25 3) with 1875 in C2.
    change (contribution_hundredths 5 20 3) with 1200 in C3.
    change (contribution_hundredths 20 15 15) with 1125 in C4.
    change (contribution_hundredths 5 10 2) with 400 in C5.
    change 66 with (round_half_even 6600 100).
    apply round_half_even_mono; [lia|].
    unfold exact_contributions, sum_ints. simpl. lia.
  - intros H90.
    assert (Hsum : 8950 <= sum_ints (exact_contributions m)).
    { destruct (Z.le_gt_cases 8950 (sum_ints (exact_contributions m)))
        as [H|H]; [exact H|].
      exfalso.
      pose proof (@round_half_even_mono (sum_ints (exact_contributions m)) 8949
                                        100 ltac:(lia) ltac:(lia)) as Hr.
      change (round_half_even 8949 100) with 89 in Hr. lia. }
    unfold exact_contributions, sum_ints in Hsum. simpl in Hsum.
    repeat split.
    + destruct (Z.le_gt_cases 2 (internships m)) as [H|H]; [exact H|]. exfalso.
      pose proof (@contribution_mono 3 30 (internships m) 1 ltac:(lia) ltac:(lia) ltac:(lia)) as C.
      change (contribution_hundredths 3 30 1) with 1000 in C. lia.
    + destruct (Z.le_gt_cases 3 (projects m)) as [H|H]; [exact H|]. exfalso.
      pose proof (@contribution_mono 4 25 (projects m) 2 ltac:(lia) ltac:(lia) ltac:(lia)) as C.
      change (contribution_hundredths 4 25 2) with 1250 in C. lia.
    + destruct (Z.le_gt_cases 3 (certifications m)) as [H|H]; [exact H|]. exfalso.
      pose proof (@contribution_mono 5 20 (certifications m) 2 ltac:(lia) ltac:(lia) ltac:(lia)) as C.
      change (contribution_hundredths 5 20 2) with 800 in C. lia.
Qed.

(** ** Texts without letters *)

Section Letterless.
Context {U : Unicode}.

Lemma in_set_letter (cs : charset) (c : char) :
  forallb letter_item cs = true -> in_set cs c = true -> ascii_lower c = true.
Proof.
  unfold in_set. induction cs as [|i cs IH]; simpl; [discriminate|].
  intros Hall Hin. apply andb_prop in Hall. destruct Hall as [Hi Hall].
  apply orb_prop in Hin. destruct Hin as [Hin|Hin]; [|apply IH; assumption].
  destruct i as [x|lo hi| | |]; simpl in Hi, Hin; try discriminate.
  - apply N.eqb_eq in Hin. subst. exact Hi.
  - unfold ascii_lower, in_range in *.
    apply andb_prop in Hi. destruct Hi as [Hlo Hhi].
    apply andb_prop in Hlo, Hhi, Hin.
    destruct Hlo as [Hlo _], Hhi as [_ Hhi], Hin as [H1 H2].
    apply N.leb_le in Hlo, Hhi, H1, H2.
    apply andb_true_intro. split; apply N.leb_le; lia.
Qed.

Lemma letterless_app (a b : str) :
  letterless (a ++ b) = true -> letterless b = true.
Proof.
  unfold letterless. rewrite forallb_app. intros H.
  apply andb_prop in H. apply H.
Qed.

Lemma letterless_skipn (k : nat) (s : str) :
  letterless s = true -> letterless (skipn k s) = true.
Proof.
  intros H. rewrite <- (firstn_skipn k s) in H.
  apply (letterless_app _ _ H).
Qed.

(** What is left after a match in a string without letters has none. *)
Lemma run_letterless_rest (r : regex) :
  forall st st', In st' (run r st) ->
                 letterless (snd st) = true -> letterless (snd st') = true.
Proof.
  induction r as [| |cs| |a IHa b IHb|a IHa b IHb|cs]; intros st st' Hin Hs.
  - destruct Hin as [<-|[]]. exact Hs.
  - destruct Hin.
  - apply in_run_OneOf in Hin. destruct Hin as (c & Hc & _).
    rewrite Hc in Hs. apply (letterless_app [c] _ Hs).
  - simpl in Hin. destruct (xorb _ _); [|destruct Hin].
    destruct Hin as [<-|[]]. exact Hs.
  - apply in_run_Seq in Hin. destruct Hin as (mid & Ha & Hb).
    apply (IHb _ _ Hb). apply (IHa _ _ Ha). exact Hs.
  - simpl in Hin. apply in_app_iff in Hin.
    destruct Hin as [H|H]; [apply (IHa _ _ H Hs)|apply (IHb _ _ H Hs)].
  - simpl in Hin. apply in_star_run in Hin.
    destruct Hin as (ws & Hws & _). rewrite Hws in Hs.
    apply (letterless_app _ _ Hs).
Qed.

(** A pattern that needs a letter has no match in a string without one. *)
Lemma run_needs_letter_state (r : regex) :
  needs_letter r = true ->
  forall st, letterless (snd st) = true -> run r st = [].
Proof.
  induction r as [| |cs| |a IHa b IHb|a IHa b IHb|cs]; simpl; intros Hn st Hs;
    try discriminate.
  - reflexivity.
  - destruct (snd st) as [|c s'] eqn:Hst; [reflexivity|].
    destruct (in_set cs c) eqn:Hc; [|reflexivity].
    apply (in_set_letter _ _ Hn) in Hc.
    simpl in Hs. rewrite Hc in Hs. discriminate.
  - apply orb_prop in Hn. destruct Hn as [Hn|Hn].
    + rewrite (IHa Hn st Hs). reflexivity.
    + destruct (flat_map (run b) (run a st)) as [|x l] eqn:Hf; [reflexivity|].
      assert (Hx : In x (flat_map (run b) (run a st)))
        by (rewrite Hf; left; reflexivity).
      apply in_flat_map in Hx. destruct Hx as (mid & Ha & Hb).
      rewrite (IHb Hn mid) in Hb; [destruct Hb|].
      apply (run_letterless_rest _ _ _ Ha Hs).
  - apply andb_prop in Hn. destruct Hn as [Ha Hb].
    rewrite (IHa Ha st Hs), (IHb Hb st Hs). reflexivity.
Qed.

Lemma run_needs_letter (r : regex) (p : option char) (s : str) :
  needs_letter r = true -> letterless s = true -> run r (p, s) = [].
Proof. intros Hn Hs. apply (run_needs_letter_state _ Hn (p, s) Hs). Qed.

Lemma count_from_letterless (r : regex) (s : str) :
  needs_letter r = true -> letterless s = true ->
  forall p k, count_from r p k s = 0%nat.
Proof.
  intros Hn. induction s as [|c s IH]; intros Hs p k.
  - destruct k; simpl; [|reflexivity].
    unfold match_here. rewrite (run_needs_letter _ p _ Hn Hs). reflexivity.
  - assert (Hs' : letterless s = true) by apply (letterless_app [c] _ Hs).
    destruct k; simpl; [|apply IH, Hs'].
    unfold match_here. rewrite (run_needs_letter _ p _ Hn Hs).
    apply IH, Hs'.
Qed.

Lemma re_count_letterless (r : regex) (s : str) :
  needs_letter r = true -> letterless s = true -> re_count r s = 0.
Proof.
  intros Hn Hs. unfold re_count.
  rewrite (count_from_letterless _ _ Hn Hs). reflexivity.
Qed.

Lemma search_from_letterless (r : regex) (s : str) :
  needs_letter r = true -> letterless s = true ->
  forall p pos, search_from r p pos s = None.
Proof.
  intros Hn. induction s as [|c s IH]; intros Hs p pos; simpl;
    unfold match_here; rewrite (run_needs_letter _ p _ Hn Hs);
    [reflexivity|].
  apply IH. apply (letterless_app [c] _ Hs).
Qed.

Lemma find_section_letterless (tl : str) (hs : list string) :
  forallb (fun h => needs_letter (header_pattern (u h))) hs = true ->
  letterless tl = true ->
  find_section_lower tl (map u hs) = (-1, -1).
Proof.
  intros Hall Hs. induction hs as [|h hs IH]; [reflexivity|].
  cbn [forallb] in Hall. apply andb_prop in Hall. destruct Hall as [Hh Hall].
  cbn [map find_section_lower]. unfold re_search at 1.
  rewrite (search_from_letterless _ _ Hh Hs). apply IH, Hall.
Qed.

Lemma find_skills_letterless (tl : str) (skills : list string) :
  forallb (fun s => needs_letter (skill_regex (u s))) skills = true ->
  letterless tl = true ->
  forall found, find_skills tl skills found = found.
Proof.
  intros Hall Hs. induction skills as [|s skills IH]; intros found;
    [reflexivity|].
  cbn [forallb] in Hall. apply andb_prop in Hall. destruct Hall as [Hh Hall].
  cbn [find_skills]. unfold re_search.
  rewrite (search_from_letterless _ _ Hh Hs). apply IH, Hall.
Qed.

Lemma headers_need_letters :
  forallb (fun h => needs_letter (header_pattern (u h)))
          (exp_headers ++ project_headers ++ cert_headers ++ skill_headers
           ++ achievement_headers ++ extra_headers) = true.
Proof. vm_compute. reflexivity. Qed.

Lemma skills_need_letters :
  forallb (fun s => needs_letter (skill_regex (u s))) all_skills = true.
Proof. vm_compute. reflexivity. Qed.

Lemma no_section_letterless (text : str) (hs : list string) :
  incl hs (exp_headers ++ project_headers ++ cert_headers ++ skill_headers
           ++ achievement_headers ++ extra_headers) ->
  letterless (str_lower text) = true ->
  find_section text hs = (-1, -1).
Proof.
  intros Hincl Hs. apply find_section_letterless; [|exact Hs].
  apply forallb_forall. intros h Hin.
  exact (proj1 (forallb_forall _ _) headers_need_letters h (Hincl h Hin)).
Qed.
End Letterless.

Ltac headers_listed :=
  intros h Hin; repeat (apply in_or_app; (left; exact Hin) || right);
  try exact Hin.

(** X9. A text whose lower-cased form has no letter from a to z has no
    section and no fallback match: every header, every skill and every
    fallback pattern needs such a letter.  All five counters return 0 and the
    total score is 0. *)
Theorem letterless_text_scores_zero {U : Unicode} (text : str) :
  letterless (str_lower text) = true ->
  resume_metrics text = no_metrics /\
  total_of (resume_metrics text) = Some 0.
Proof.
  intros Hs.
  assert (Hm : resume_metrics text = no_metrics).
  { unfold resume_metrics, no_metrics. f_equal.
    - unfold count_internships.
      rewrite (@no_section_letterless _ text exp_headers) by (headers_listed || exact Hs).
      unfold internship_fallback.
      rewrite re_count_letterless by (vm_compute; reflexivity) || exact Hs.
      reflexivity.
    - unfold count_projects.
      rewrite (@no_section_letterless _ text project_headers) by (headers_listed || exact Hs).
      unfold project_fallback.
      rewrite re_count_letterless by (vm_compute; reflexivity) || exact Hs.
      reflexivity.
    - unfold count_certifications.
      rewrite (@no_section_letterless _ text cert_headers) by (headers_listed || exact Hs).
      unfold certification_fallback.
      rewrite re_count_letterless by (vm_compute; reflexivity) || exact Hs.
      reflexivity.
    - unfold count_skills.
      rewrite (@no_section_letterless _ text skill_headers) by (headers_listed || exact Hs).
      rewrite (find_skills_letterless _ _ skills_need_letters Hs).
      reflexivity.
    - unfold count_achievements.
      rewrite (@no_section_letterless _ text achievement_headers) by (headers_listed || exact Hs).
      rewrite (@no_section_letterless _ text extra_headers) by (headers_listed || exact Hs).
      unfold achievement_fallback.
      rewrite re_count_letterless by (vm_compute; reflexivity) || exact Hs.
      reflexivity. }
  split; [exact Hm|]. rewrite Hm. vm_compute. reflexivity.
Qed.

(** ** Brand mentions: certifications and achievements *)

Section Brands.
Context {U : Unicode}.

Lemma run_head_char (r : regex) (c : char) :
  head_char r = Some c ->
  forall p s, hd_error s <> Some c -> run r (p, s) = [].
Proof.
  induction r as [| |cs| |a IHa b IHb|a IHa b IHb|cs]; simpl; intros Hh p s Hs;
    try discriminate.
  - destruct cs as [|[x|lo hi| | |] [|i cs]]; try discriminate.
    injection Hh as ->.
    destruct s as [|y s']; [reflexivity|].
    unfold in_set. simpl. rewrite orb_false_r.
    destruct (N.eqb_spec y c) as [->|Hne]; [|reflexivity].
    exfalso. apply Hs. reflexivity.
  - rewrite (IHa Hh p s Hs). reflexivity.
Qed.

(** The two fallback patterns list the same five brands in a different
    order; no two brands start with the same letter, so at a given position
    at most one alternative has a match and the order plays no part. *)
Lemma brand_patterns_run (p : option char) (s : str) :
  run (re "\b(nptel|coursera|udemy|aws\s+certified|google\s+certified)\b") (p, s)
  = run (re "\b(coursera|udemy|nptel|aws\s+certified|google\s+certified)\b") (p, s).
Proof.
  assert (E : exists c u n a,
             re "\b(nptel|coursera|udemy|aws\s+certified|google\s+certified)\b"
             = Seq WordB (Seq (Alt n (Alt c (Alt u a))) WordB) /\
             re "\b(coursera|udemy|nptel|aws\s+certified|google\s+certified)\b"
             = Seq WordB (Seq (Alt c (Alt u (Alt n a))) WordB) /\
             head_char c = Some 99%N /\ head_char u = Some 117%N /\
             head_char n = Some 110%N).
  { vm_compute. do 4 eexists. repeat split. }
  destruct E as (c & u & n & a & -> & -> & Hc & Hu & Hn).
  cbn [run]. destruct (xorb _ _); [|reflexivity].
  cbn [flat_map]. f_equal. f_equal.
  destruct (N.eq_dec (match s with x :: _ => x | [] => 0%N end) 110) as [He|Hne].
  - rewrite (run_head_char _ Hc), (run_head_char _ Hu); [reflexivity| |];
      destruct s as [|x s']; simpl; try discriminate;
      intros H; injection H as H; subst x; discriminate.
  - rewrite (run_head_char _ Hn).
    + rewrite !app_nil_l. reflexivity.
    + destruct s as [|x s']; simpl; [discriminate|].
      intros H. injection H as H. subst x. apply Hne. reflexivity.
Qed.

Lemma count_from_ext (r r' : regex) :
  (forall p s, run r (p, s) = run r' (p, s)) ->
  forall s p k, count_from r p k s = count_from r' p k s.
Proof.
  intros Hrun.
  assert (Hm : forall p s, match_here r p s = match_here r' p s)
    by (intros p s; unfold match_here; rewrite Hrun; reflexivity).
  induction s as [|c s IH]; intros p k; destruct k; simpl;
    rewrite ?Hm, ?IH; try reflexivity.
  destruct (match_here r' p (c :: s)); rewrite ?IH; reflexivity.
Qed.

Lemma brand_fallbacks_agree (tl : str) :
  achievement_fallback tl = certification_fallback tl.
Proof.
  unfold achievement_fallback, certification_fallback, re_count.
  rewrite (count_from_ext _ _ brand_patterns_run). reflexivity.
Qed.
End Brands.

(** X10. A brand mention counts twice.  In a text with no achievements and
    no extracurricular heading, the achievements counter is the count of the
    certification brands (Coursera, Udemy, NPTEL, "AWS certified",
    "Google certified") over the whole text, capped at 8: the same matches
    the certifications counter falls back to.  With no certifications
    heading either, the achievements are the certifications, capped at 8. *)
Theorem brand_mentions_count_twice {U : Unicode} (text : str) :
  fst (find_section text achievement_headers) = -1 ->
  fst (find_section text extra_headers) = -1 ->
  count_achievements text
  = Z.min (certification_fallback (str_lower text)) 8 /\
  (fst (find_section text cert_headers) = -1 ->
   count_achievements text = Z.min (count_certifications text) 8).
Proof.
  intros Ha He.
  assert (Hach : count_achievements text
                 = Z.min (certification_fallback (str_lower text)) 8).
  { unfold count_achievements.
    destruct (find_section text achievement_headers) as [s1 e1].
    destruct (find_section text extra_headers) as [s2 e2].
    simpl in Ha, He. subst s1 s2. cbn [Z.eqb Pos.eqb].
    rewrite brand_fallbacks_agree.
    pose proof (re_count_nonneg
                  (re "\b(coursera|udemy|nptel|aws\s+certified|google\s+certified)\b")
                  (str_lower text)) as Hpos.
    unfold certification_fallback in *. cbn [Z.max Z.compare] .
    rewrite Z.max_r by exact Hpos. reflexivity. }
  split; [exact Hach|].
  intros Hc. rewrite Hach. unfold count_certifications.
  destruct (find_section text cert_headers) as [s3 e3].
  simpl in Hc. subst s3. cbn [Z.eqb Pos.eqb].
  pose proof (re_count_nonneg
                (re "\b(coursera|udemy|nptel|aws\s+certified|google\s+certified)\b")
                (str_lower text)) as Hpos.
  unfold certification_fallback in *. lia.
Qed.

(** ** The skills found *)

Section FoundSkills.
Context {U : Unicode}.

Lemma set_add_in (x y : str) (s : list str) :
  In y (set_add x s) <-> y = x \/ In y s.
Proof.
  unfold set_add. destruct (in_dec str_eq_dec x s) as [Hin|Hnin]; simpl.
  - split; [auto|]. intros [->|H]; assumption.
  - split; intros [H|H]; auto.
Qed.

Lemma set_add_nodup (x : str) (s : list str) :
  NoDup s -> NoDup (set_add x s).
Proof.
  intros Hs. unfold set_add.
  destruct (in_dec str_eq_dec x s) as [Hin|Hnin]; [exact Hs|].
  constructor; assumption.
Qed.

Lemma find_skills_spec (tl : str) (skills : list string) :
  forall found,
    NoDup found ->
    NoDup (find_skills tl skills found) /\
    forall s, In s (find_skills tl skills found) <->
              In s found \/
              (In s (map u skills) /\ re_search (skill_regex s) tl <> None).
Proof.
  induction skills as [|k skills IH]; intros found Hnd; cbn [find_skills map].
  - split; [exact Hnd|]. intros s. split; [auto|].
    intros [H|[[] _]]. exact H.
  - destruct (re_search (skill_regex (u k)) tl) as [m|] eqn:Hk.
    + destruct (IH (set_add (u k) found) (set_add_nodup _ Hnd)) as [H1 H2].
      split; [exact H1|]. intros s. rewrite H2, set_add_in.
      split.
      * intros [[->|H]|[H Hs]]; auto.
        -- right. split; [left; reflexivity|]. rewrite Hk. discriminate.
        -- right. split; [right; exact H|exact Hs].
      * intros [H|[[<-|H] Hs]]; auto.
    + destruct (IH found Hnd) as [H1 H2].
      split; [exact H1|]. intros s. rewrite H2.
      split.
      * intros [H|[H Hs]]; auto.
        right. split; [right; exact H|exact Hs].
      * intros [H|[[<-|H] Hs]]; auto.
        exfalso. apply Hs. exact Hk.
Qed.
End FoundSkills.

(** X11. The skills found are a set: every skill of the vocabulary whose
    pattern occurs in the lower-cased text, each once, also a skill that the
    vocabulary lists under two categories.  Without a skills heading the
    counter is their number, capped at 30. *)
Theorem found_skills_are_the_vocabulary_in_the_text {U : Unicode} (text : str) :
  let found := find_skills (str_lower text) all_skills [] in
  NoDup found /\
  (forall s, In s found <->
             In s (map u all_skills)
             /\ re_search (skill_regex s) (str_lower text) <> None) /\
  (fst (find_section text skill_headers) = -1 ->
   count_skills text = Z.min (len found) 30).
Proof.
  cbv zeta.
  destruct (find_skills_spec (str_lower text) all_skills (NoDup_nil _))
    as [Hnd Hin].
  split; [exact Hnd|]. split.
  - intros s. rewrite Hin. split; [intros [[]|H]; exact H|auto].
  - intros Hs. unfold count_skills.
    destruct (find_section text skill_headers) as [s1 e1].
    simpl in Hs. subst s1. cbn [Z.eqb Pos.eqb].
    change (0 / 2) with 0. rewrite Z.add_0_r. reflexivity.
Qed.

(** ** Where a section ends *)

Section SectionEnd.
Context {U : Unicode}.





End SectionEnd.


(** ** The rating endpoint of [main.py] *)

Section RatingEndpoint.
Context {U : Unicode}.
Variable E : Type.
Variables (value_error failed_to_parse not_finite : E).
Variables (L G : Type) (lc_score : L -> Z) (gh_score : G -> Z).
Variable get_leetcode_data : string -> outcome E L.
Variable get_github_data : string -> outcome E G.
Variable extract_resume_text : string -> outcome E str.

Lemma resume_total_in_range (text : str) :
  exists s, calculate_resume_score (resume_metrics text) = Some s /\
            0 <= total_score s <= 100.
Proof.
  pose proof (resume_metrics_valid text) as (H1 & H2 & H3 & H4 & H5).
  destruct (@score_exact_inv (resume_metrics text)) as (s & Hs & _ & _ & Hr).
  { apply score_exact; lia. }
  exists s. split; assumption.
Qed.

(** With scraper scores within 0 and 100, the body returns as soon as the
    scrapers return and the resume has text. *)
Lemma rating_body_returns (lu gu path : string) (lc : L) (gh : G) (text : str) :
  0 <= lc_score lc <= 100 -> 0 <= gh_score gh <= 100 ->
  get_leetcode_data lu = Returns lc ->
  get_github_data gu = Returns gh ->
  extract_resume_text path = Returns text ->
  is_blank text = false ->
  exists s e,
    calculate_resume_score (resume_metrics text) = Some s /\
    0 <= total_score s <= 100 /\
    compute_elo {| leetcode_score := lc_score lc;
                   github_score := gh_score gh;
                   resume_score := total_score s |} = Some e /\
    1000 <= e <= 2500 /\
    rating_body value_error failed_to_parse not_finite lc_score gh_score
                get_leetcode_data get_github_data extract_resume_text
                lu gu path
    = Returns
        {| username := lu;
           elo_rating := e;
           platform_scores :=
             {| leetcode_score := lc_score lc;
                github_score := gh_score gh;
                resume_score := total_score s |};
           raw_leetcode := lc;
           raw_github := gh;
           raw_resume :=
             {| rd_internships := count_internships text;
                rd_projects := count_projects text;
                rd_certifications := count_certifications text;
                rd_skills := count_skills text;
                rd_achievements := count_achievements text;
                rd_score := total_score s |} |}.
Proof.
  intros Hlc Hgh Hl Hg Hx Hb.
  destruct (resume_total_in_range text) as (s & Hs & Hr).
  destruct (@elo_close {| leetcode_score := lc_score lc;
                          github_score := gh_score gh;
                          resume_score := total_score s |})
    as (e & He & Hclose & Hlow & _).
  { unfold scores_in_range. simpl. lia. }
  exists s, e. split; [exact Hs|]. split; [exact Hr|]. split; [exact He|].
  split.
  - split; [exact Hlow|].
    unfold exact_elo_floor in Hclose. cbn [leetcode_score github_score resume_score] in Hclose.
    Z.div_mod_to_equations. lia.
  - unfold rating_body, bind. rewrite Hl, Hg.
    rewrite (parse_resume_complete value_error extract_resume_text path Hx Hb).
    rewrite Hs. cbn [rd_score]. rewrite He. reflexivity.
Qed.
End RatingEndpoint.

(** X13. The endpoint returns a rating exactly when both scrapers return and
    the resume has text that is not blank, given scraper scores within 0 and
    100.  The response then holds the five counts of that text, the resume
    score computed from them (within 0 and 100), and the rating
    [compute_elo] gives on the three scores, which lies within 1000 and
    2500: no float of the computation is ever infinite or undefined. *)
Theorem calculate_rating_returns
        {U : Unicode} (E : Type) (value_error failed_to_parse not_finite : E)
        (L G : Type) (lc_score : L -> Z) (gh_score : G -> Z)
        (get_leetcode_data : string -> outcome E L)
        (get_github_data : string -> outcome E G)
        (extract_resume_text : string -> outcome E str)
        (lu gu path : string) :
  (forall d, 0 <= lc_score d <= 100) ->
  (forall d, 0 <= gh_score d <= 100) ->
  let result :=
    calculate_rating value_error failed_to_parse not_finite lc_score gh_score
                     get_leetcode_data get_github_data extract_resume_text
                     lu gu path in
  ((exists response, result = Returns response) <->
   (exists lc gh text,
       get_leetcode_data lu = Returns lc /\
       get_github_data gu = Returns gh /\
       extract_resume_text path = Returns text /\
       is_blank text = false)) /\
  (forall response,
      result = Returns response ->
      exists lc gh text,
        get_leetcode_data lu = Returns lc /\
        get_github_data gu = Returns gh /\
        extract_resume_text path = Returns text /\
        raw_leetcode response = lc /\ raw_github response = gh /\
        platform_scores response
        = {| leetcode_score := lc_score lc; github_score := gh_score gh;
             resume_score := rd_score (raw_resume response) |} /\
        resume_metrics text
        = {| internships := rd_internships (raw_resume response);
             projects := rd_projects (raw_resume response);
             certifications := rd_certifications (raw_resume response);
             skills := rd_skills (raw_resume response);
             achievements := rd_achievements (raw_resume response) |} /\
        total_of (resume_metrics text) = Some (rd_score (raw_resume response)) /\
        0 <= rd_score (raw_resume response) <= 100 /\
        compute_elo (platform_scores response) = Some (elo_rating response) /\
        1000 <= elo_rating response <= 2500).
Proof.
  intros Hlc Hgh. cbv zeta.
  assert (Hret : forall response,
             calculate_rating value_error failed_to_parse not_finite lc_score
                              gh_score get_leetcode_data get_github_data
                              extract_resume_text lu gu path
             = Returns response ->
             exists lc gh text,
               get_leetcode_data lu = Returns lc /\
               get_github_data gu = Returns gh /\
               extract_resume_text path = Returns text /\
               is_blank text = false).
  { intros response. unfold calculate_rating, rating_body, bind.
    destruct (get_leetcode_data lu) as [lc|e]; [|discriminate].
    destruct (get_github_data gu) as [gh|e]; [|discriminate].
    unfold parse_resume, parse_resume_with, parse_body, bind.
    destruct (extract_resume_text path) as [text|e]; [|discriminate].
    destruct (is_blank text) eqn:Hb; [discriminate|].
    intros _. exists lc, gh, text. auto. }
  split.
  - split.
    + intros (response & Hr). apply (Hret response Hr).
    + intros (lc & gh & text & Hl & Hg & Hx & Hb).
      destruct (rating_body_returns value_error failed_to_parse not_finite
                  lc_score gh_score get_leetcode_data get_github_data
                  extract_resume_text lu gu path (Hlc lc) (Hgh gh) Hl Hg Hx Hb)
        as (s & e & _ & _ & _ & _ & Hbody).
      unfold calculate_rating. rewrite Hbody. eexists. reflexivity.
  - intros response Hr.
    destruct (Hret response Hr) as (lc & gh & text & Hl & Hg & Hx & Hb).
    destruct (rating_body_returns value_error failed_to_parse not_finite
                lc_score gh_score get_leetcode_data get_github_data
                extract_resume_text lu gu path (Hlc lc) (Hgh gh) Hl Hg Hx Hb)
      as (s & e & Hs & Hrange & He & Hscale & Hbody).
    unfold calculate_rating in Hr. rewrite Hbody in Hr.
    injection Hr as <-. cbn.
    exists lc, gh, text. unfold total_of. rewrite Hs.
    repeat split; try assumption; try reflexivity; lia.
Qed.

(** X14. What the endpoint reports when it fails: always status 400.  The
    exception of a scraper is passed on as the detail, the one of the
    LeetCode scraper first; a resume whose text cannot be extracted, or is
    blank, is reported as "Failed to parse resume" whatever the extraction
    raised, because [parse_resume] has already turned the exception into
    [None]. *)
Theorem calculate_rating_errors
        {U : Unicode} (E : Type) (value_error failed_to_parse not_finite : E)
        (L G : Type) (lc_score : L -> Z) (gh_score : G -> Z)
        (get_leetcode_data : string -> outcome E L)
        (get_github_data : string -> outcome E G)
        (extract_resume_text : string -> outcome E str)
        (lu gu path : string) :
  let result :=
    calculate_rating value_error failed_to_parse not_finite lc_score gh_score
                     get_leetcode_data get_github_data extract_resume_text
                     lu gu path in
  (forall e, get_leetcode_data lu = Raises e -> result = Raises (HTTP400 e)) /\
  (forall lc e,
      get_leetcode_data lu = Returns lc -> get_github_data gu = Raises e ->
      result = Raises (HTTP400 e)) /\
  (forall lc gh,
      get_leetcode_data lu = Returns lc -> get_github_data gu = Returns gh ->
      (exists e, extract_resume_text path = Raises e) \/
      (exists text, extract_resume_text path = Returns text /\
                    is_blank text = true) ->
      result = Raises (HTTP400 failed_to_parse)).
Proof.
  cbv zeta. unfold calculate_rating, rating_body, bind. repeat split.
  - intros e ->. reflexivity.
  - intros lc e -> ->. reflexivity.
  - intros lc gh -> -> Hx.
    unfold parse_resume, parse_resume_with, parse_body, bind.
    destruct Hx as [(e & ->)|(text & -> & ->)]; reflexivity.
Qed.

(* ------------------------------------------------------------------ *)
(** * The sample documents

    They are ASCII, so the ASCII tables give Python's lower-casing and
    character classes on them. *)

#[local] Existing Instance ascii_tables.

Lemma certifications_fallback_count_witness :
  count_certifications aws_certified_once
  = Z.min (certification_fallback (str_lower aws_certified_once)) 10 /\
  (certification_fallback (str_lower aws_certified_once) = 1 ->
   count_certifications aws_certified_once = 1) /\
  (forall pre post,
      str_lower aws_certified_once = pre ++ u "aws certified" ++ post ->
      word_delimited pre post ->
      1 <= count_certifications aws_certified_once <= 10).
Proof.
  apply (@certifications_fallback_count ascii_tables aws_certified_once).
  vm_compute. reflexivity.
Defined.

(** The lone "AWS Certified" of the specification's scenario stands
    delimited as a word and counts 1. *)
Lemma aws_certified_once_counts_one :
  find_section aws_certified_once cert_headers = (-1, -1) /\
  str_lower aws_certified_once
  = unlines ["resume"; "i am "]%string ++ u "aws certified" ++ u "." /\
  word_delimited (unlines ["resume"; "i am "]%string) (u ".") /\
  count_certifications aws_certified_once = 1.
Proof. repeat split; vm_compute; reflexivity. Qed.

(** C9, as the specification words it, fails.  Neither text has a
    certifications header and each holds "AWS Certified" exactly once; the
    first also names Coursera and counts 2, the second has the phrase glued
    to a word and counts 0. *)
Lemma aws_certified_once_is_not_always_one :
  find_section aws_and_coursera cert_headers = (-1, -1) /\
  count_certifications aws_and_coursera = 2 /\
  find_section (unlines ["Resume"; "MyAWS Certified"]%string) cert_headers
  = (-1, -1) /\
  count_certifications (unlines ["Resume"; "MyAWS Certified"]%string) = 0.
Proof. repeat split; vm_compute; reflexivity. Qed.

(** C5 fails on the code.  The certifications section of this text is found
    and each of its five signals is zero; the fallback pattern matches once
    in the whole document ("Coursera", under Education), so falling back
    would give 1.  The counter returns 0: [if indicators:] tests a list that
    always holds five elements, so the maximum of the signals is returned and
    the fallback is never consulted, unlike in the internships and projects
    counters, which test the nonzero signals. *)
Theorem certifications_do_not_fall_back :
  find_section empty_certifications_section cert_headers = (22, 31) /\
  certification_indicators (str_lower empty_certifications_section) 22 31
  = [0; 0; 0; 0; 0] /\
  certification_fallback (str_lower empty_certifications_section) = 1 /\
  count_certifications empty_certifications_section = 0 /\
  count_certifications empty_certifications_section
  <> Z.min (Z.max (certification_fallback
                     (str_lower empty_certifications_section)) 0) 10.
Proof. repeat split; try (vm_compute; reflexivity). vm_compute. discriminate. Qed.

(** The experience section of [empty_experience_section] is found at
    (27, 3027) with no signal: the internships counter falls back. *)
Lemma zero_signals_fall_back_witness :
  count_internships empty_experience_section
  = Z.min (Z.max (internship_fallback (str_lower empty_experience_section)) 0) 5.
Proof.
  apply (proj1 (@zero_signals_fall_back ascii_tables empty_experience_section)
               27 3027).
  - vm_compute. reflexivity.
  - discriminate.
  - vm_compute. repeat constructor.
Defined.

(** The experience section of this text has no signal and the word "intern"
    stands before it: the internships counter falls back and returns 1. *)
Lemma empty_experience_section_counts_one :
  find_section empty_experience_section exp_headers = (27, 3027) /\
  internship_indicators empty_experience_section
                        (str_lower empty_experience_section) 27 3027
  = [0; 0; 0; 0] /\
  count_internships empty_experience_section = 1.
Proof. repeat split; vm_compute; reflexivity. Qed.

(** C6 fails on the code.  The projects header of this text is located, no
    signal fires in the section, the global pattern finds nothing, and the
    counter returns 0, below the floor of 1 the code's own comment promises
    ("At least 1 if section exists"). *)
Theorem located_projects_section_counts_zero :
  find_section empty_projects_section project_headers = (16, 3016) /\
  project_indicators empty_projects_section
                     (str_lower empty_projects_section) 16 3016
  = [0; 0; 0; 0; 0] /\
  count_projects empty_projects_section = 0.
Proof. repeat split; vm_compute; reflexivity. Qed.

(** A heading on the first line is not found; the same heading repeated on a
    later line is. *)
Lemma heading_on_first_line_not_found :
  find_section heading_on_first_line project_headers = (-1, -1) /\
  find_section (heading_on_first_line ++ NL :: heading_on_first_line)
               project_headers = (37, 3037).
Proof. split; vm_compute; reflexivity. Qed.

Lemma first_listed_candidate_wins_witness :
  exists k h i,
    nth_error project_headers k = Some h /\
    header_at (u h) (str_lower two_project_headings) i (Z.to_nat 40) /\
    0 <= 40 /\
    (forall j e, (j < i)%nat ->
                 ~ header_at (u h) (str_lower two_project_headings) j e) /\
    (forall k' h', (k' < k)%nat -> nth_error project_headers k' = Some h' ->
                   forall j e,
                     ~ header_at (u h') (str_lower two_project_headings) j e).
Proof.
  apply (@first_listed_candidate_wins ascii_tables two_project_headings
                                      project_headers 40 3040).
  - vm_compute. reflexivity.
  - discriminate.
Defined.

(** C3, as the specification words it, fails.  In this text "Personal
    Projects" stands as a heading at offset 6 and "Projects" at offset 30,
    both candidates of the projects section; no candidate stands earlier than
    offset 6; the locator returns the section that starts at offset 40, after
    the later heading, because "projects" comes first in the candidate
    list. *)
Lemma later_heading_is_selected :
  candidate_at project_headers (str_lower two_project_headings) 6 25 /\
  candidate_at project_headers (str_lower two_project_headings) 30 40 /\
  find_section two_project_headings project_headers = (40, 3040) /\
  ~ selects_first_in_document two_project_headings project_headers.
Proof.
  assert (H6 : candidate_at project_headers (str_lower two_project_headings) 6 25).
  { exists "personal projects"%string. split; [simpl; auto|].
    apply header_at_run.
    exists (Some NL, skipn 25 (str_lower two_project_headings)).
    split; [vm_compute; left; reflexivity|].
    split; [vm_compute; reflexivity|vm_compute; lia]. }
  split; [exact H6|].
  split.
  { exists "projects"%string. split; [simpl; auto|].
    apply header_at_run.
    exists (Some NL, skipn 40 (str_lower two_project_headings)).
    split; [vm_compute; left; reflexivity|].
    split; [vm_compute; reflexivity|vm_compute; lia]. }
  split; [vm_compute; reflexivity|].
  intros Hsel.
  destruct (Hsel 6%nat 25%nat H6) as (e0 & (h & Hin & Hat) & He0).
  { intros j e' Hj (h & _ & Hat).
    apply header_at_newline in Hat.
    do 6 (destruct j as [|j]; [vm_compute in Hat; discriminate|]). lia. }
  assert (e0 = 40%nat) as ->.
  { assert (Hfs : fst (find_section two_project_headings project_headers) = 40)
      by (vm_compute; reflexivity).
    rewrite Hfs in He0. lia. }
  apply header_at_run in Hat. destruct Hat as (st' & Hrun & He & _).
  simpl in Hin.
  repeat (destruct Hin as [<-|Hin];
          [vm_compute in Hrun;
           try contradiction;
           destruct Hrun as [<-|[]]; vm_compute in He; discriminate|]).
  contradiction.
Qed.

(** ** The rest of the pipeline on sample inputs *)

(** Scores 3, 96 and 98: the exact rating is 1891, the floats give 1890. *)
Lemma compute_elo_in_scale_witness :
  exists e, compute_elo scores_losing_a_point = Some e /\ 1000 <= e <= 2500.
Proof.
  apply (@compute_elo_in_scale scores_losing_a_point).
  unfold scores_in_range; simpl. lia.
Defined.

Lemma compute_elo_at_most_one_below_exact_witness :
  exists e,
    compute_elo scores_losing_a_point = Some e /\
    exact_elo_floor scores_losing_a_point - 1 <= e
    <= exact_elo_floor scores_losing_a_point.
Proof.
  apply (@compute_elo_at_most_one_below_exact scores_losing_a_point).
  unfold scores_in_range; simpl. lia.
Defined.

Lemma scores_losing_a_point_rating :
  compute_elo scores_losing_a_point = Some 1890 /\
  exact_elo_floor scores_losing_a_point = 1891.
Proof. vm_compute. split; reflexivity. Qed.

Lemma compute_elo_strictly_monotone_witness :
  exists e e',
    compute_elo scores_losing_a_point = Some e /\
    compute_elo scores_one_better = Some e' /\ e < e'.
Proof.
  apply (@compute_elo_strictly_monotone scores_losing_a_point scores_one_better).
  - unfold scores_in_range; simpl. lia.
  - unfold scores_in_range; simpl. lia.
  - simpl. lia.
  - simpl. lia.
  - simpl. lia.
  - discriminate.
Defined.

Lemma float_error_keeps_tier_witness :
  exists e,
    compute_elo scores_losing_a_point = Some e /\
    tier (get_rating_tier e)
    = tier (get_rating_tier (exact_elo_floor scores_losing_a_point)).
Proof.
  apply (@float_error_keeps_tier scores_losing_a_point).
  unfold scores_in_range; simpl. lia.
Defined.

(** The record at the counters' caps scores as the record at the
    normaliser's ceilings. *)
Lemma resume_total_monotone_and_saturating_witness :
  exists t t',
    total_of metrics_at_ceilings = Some t /\
    total_of metrics_at_caps = Some t' /\ t <= t' /\
    (capped_le metrics_at_caps metrics_at_ceilings -> t = t').
Proof.
  apply (@resume_total_monotone_and_saturating metrics_at_ceilings
                                               metrics_at_caps).
  - unfold nonneg_metrics; simpl. lia.
  - unfold nonneg_metrics; simpl. lia.
  - unfold capped_le; simpl. lia.
Defined.

Lemma resume_tier_monotone_witness :
  exists t t',
    total_of no_metrics = Some t /\ total_of metrics_at_ceilings = Some t' /\
    fst (breakdown_tier t) = nth (resume_tier_rank t) resume_tiers ""%string /\
    fst (breakdown_tier t') = nth (resume_tier_rank t') resume_tiers ""%string /\
    (resume_tier_rank t <= resume_tier_rank t')%nat.
Proof.
  apply (@resume_tier_monotone no_metrics metrics_at_ceilings).
  - unfold nonneg_metrics; simpl. lia.
  - unfold nonneg_metrics; simpl. lia.
  - unfold capped_le; simpl. lia.
Defined.

Lemma recommendations_and_total_witness :
  exists t,
    total_of metrics_at_ceilings = Some t /\
    (breakdown_recommendations metrics_at_ceilings t
     = printed_if (80 <=? t)
                  "  ✓ Excellent profile! Focus on depth and advanced skills."
     -> 66 <= t) /\
    (90 <= t ->
     2 <= internships metrics_at_ceilings /\
     3 <= projects metrics_at_ceilings /\
     3 <= certifications metrics_at_ceilings).
Proof.
  apply (@recommendations_and_total metrics_at_ceilings).
  unfold nonneg_metrics; simpl. lia.
Defined.

(** Dates, a telephone number and a percentage: no letter, no count. *)
Lemma letterless_text_scores_zero_witness :
  resume_metrics no_letters = no_metrics /\
  total_of (resume_metrics no_letters) = Some 0.
Proof.
  apply (@letterless_text_scores_zero ascii_tables no_letters).
  vm_compute. reflexivity.
Defined.

(** "I am AWS Certified.": one certification and, for the same words, one
    achievement. *)
Lemma brand_mentions_count_twice_witness :
  count_achievements aws_certified_once
  = Z.min (certification_fallback (str_lower aws_certified_once)) 8 /\
  (fst (find_section aws_certified_once cert_headers) = -1 ->
   count_achievements aws_certified_once
   = Z.min (count_certifications aws_certified_once) 8).
Proof.
  apply (@brand_mentions_count_twice ascii_tables aws_certified_once).
  - vm_compute. reflexivity.
  - vm_compute. reflexivity.
Defined.

Lemma aws_certified_once_counts_twice :
  certifications (resume_metrics aws_certified_once) = 1 /\
  achievements (resume_metrics aws_certified_once) = 1.
Proof. vm_compute. split; reflexivity. Qed.


(** Scrapers that score 50 and 60 and a resume that reads
    "I am AWS Certified.": the endpoint returns. *)
Lemma calculate_rating_returns_witness :
  exists response,
    calculate_rating "Could not extract text from resume"%string
                     "Failed to parse resume"%string
                     "cannot convert float NaN to integer"%string
                     (fun _ : unit => 50) (fun _ : unit => 60)
                     (fun _ => Returns tt) (fun _ => Returns tt)
                     (fun _ => Returns aws_certified_once)
                     "leetcode user"%string "github user"%string "resume.txt"%string
    = Returns response.
Proof.
  refine (proj2 (proj1 (@calculate_rating_returns
                          ascii_tables string
                          "Could not extract text from resume"%string
                     "Failed to parse resume"%string
                     "cannot convert float NaN to integer"%string
                          unit unit (fun _ => 50) (fun _ => 60)
                          (fun _ => Returns tt) (fun _ => Returns tt)
                          (fun _ => Returns aws_certified_once)
                          "leetcode user"%string "github user"%string "resume.txt"%string _ _)) _).
  - intros _. lia.
  - intros _. lia.
  - exists tt, tt, aws_certified_once. repeat split.
Defined.
